(** * Token Unlocks Dashboard: the data pipeline of [main.py]

    A shallow embedding of the pipeline
    fetch -> flatten ([process_token_data]) -> aggregate and bucket
    ([preprocess_data]) -> filter (the date-range filter of [main]).

    Conventions of the model.
    - JSON numbers and pandas float columns are exact rationals ([Q]);
      rounding of binary floating point is not modelled.  The one place
      where the source can leave the finite numbers, the division that
      computes the [percentage] column, is modelled with the IEEE special
      values ([fnum]).
    - A pandas DataFrame is the list of its rows, in row order.
    - Streamlit calls are recorded as a log of [ui_event]s.
    - [st.cache_data] only memoises; the decorated functions are modelled
      by their bodies. *)

From Stdlib Require Import List String Ascii Bool ZArith QArith Lia.
From Stdlib Require Import Permutation Sorted Setoid.
Import ListNotations.

Local Open Scope Z_scope.

(** ** Calendar: [datetime], [date], ISO weeks, formatting *)

Module Calendar.

Record datetime : Type := mkDatetime {
  dt_year : Z; dt_month : Z; dt_day : Z;
  dt_hour : Z; dt_minute : Z; dt_second : Z
}.

Record date : Type := mkDate { d_year : Z; d_month : Z; d_day : Z }.

(** [datetime.date()] *)
Definition date_of (t : datetime) : date :=
  mkDate (dt_year t) (dt_month t) (dt_day t).

Definition datetime_eqb (a b : datetime) : bool :=
  (dt_year a =? dt_year b) && (dt_month a =? dt_month b) &&
  (dt_day a =? dt_day b) && (dt_hour a =? dt_hour b) &&
  (dt_minute a =? dt_minute b) && (dt_second a =? dt_second b).

(** Python compares dates as the tuples (year, month, day). *)
Definition date_leb (a b : date) : bool :=
  (d_year a <? d_year b) ||
  ((d_year a =? d_year b) &&
   ((d_month a <? d_month b) ||
    ((d_month a =? d_month b) && (d_day a <=? d_day b)))).

Definition is_leap (year : Z) : bool :=
  (year mod 4 =? 0) && (negb (year mod 100 =? 0) || (year mod 400 =? 0)).

Definition days_in_month (year month : Z) : Z :=
  match month with
  | 1 => 31 | 2 => if is_leap year then 29 else 28 | 3 => 31 | 4 => 30
  | 5 => 31 | 6 => 30 | 7 => 31 | 8 => 31 | 9 => 30 | 10 => 31
  | 11 => 30 | 12 => 31 | _ => 0
  end.

Definition days_before_year (year : Z) : Z :=
  let y := year - 1 in y * 365 + y / 4 - y / 100 + y / 400.

Definition days_before_month (year month : Z) : Z :=
  (match month with
   | 1 => 0 | 2 => 31 | 3 => 59 | 4 => 90 | 5 => 120 | 6 => 151
   | 7 => 181 | 8 => 212 | 9 => 243 | 10 => 273 | 11 => 304 | _ => 334
   end) + (if (2 <? month) && is_leap year then 1 else 0).

(** Proleptic Gregorian ordinal: 0001-01-01 is day 1. *)
Definition ymd2ord (year month day : Z) : Z :=
  days_before_year year + days_before_month year month + day.

(** Ordinal of the Monday that starts ISO week 1 of [year]. *)
Definition isoweek1monday (year : Z) : Z :=
  let firstday := ymd2ord year 1 1 in
  let firstweekday := (firstday + 6) mod 7 in
  let week1monday := firstday - firstweekday in
  if 3 <? firstweekday then week1monday + 7 else week1monday.

(** ISO 8601 week number, 1..53: what [%V] prints. *)
Definition iso_week (d : date) : Z :=
  let year := d_year d in
  let today := ymd2ord year (d_month d) (d_day d) in
  let week := (today - isoweek1monday year) / 7 in
  if week <? 0 then (today - isoweek1monday (year - 1)) / 7 + 1
  else if (52 <=? week) && (isoweek1monday (year + 1) <=? today) then 1
  else week + 1.

Definition digit_char (n : Z) : ascii :=
  ascii_of_nat (Z.to_nat (48 + n mod 10)).

Definition fmt2 (n : Z) : string :=
  String (digit_char (n / 10)) (String (digit_char n) EmptyString).

Definition fmt4 (n : Z) : string :=
  String (digit_char (n / 1000)) (String (digit_char (n / 100)) (fmt2 n)).

(** [t.strftime('%Y-W%V')]: the calendar year of [t] (four digits, as for
    every year from 1000 on), then the ISO week number of [t]. *)
Definition strftime_Y_W_V (t : datetime) : string :=
  fmt4 (dt_year t) ++ "-W" ++ fmt2 (iso_week (date_of t)).

(** *** A concrete [strptime] for the format ["%Y-%m-%dT%H:%M:%SZ"]

    The pipeline is parametric in the parser (see [Section Pipeline]);
    this instance reads the zero-padded form the API emits and is the one
    the examples run with. *)

Definition digit_val (c : ascii) : option Z :=
  let n := Z.of_nat (nat_of_ascii c) in
  if (48 <=? n) && (n <=? 57) then Some (n - 48) else None.

Fixpoint number (cs : list ascii) (acc : Z) : option Z :=
  match cs with
  | [] => Some acc
  | c :: rest =>
      match digit_val c with
      | Some d => number rest (10 * acc + d)
      | None => None
      end
  end.

Definition valid_datetime (t : datetime) : bool :=
  (1 <=? dt_year t) && (dt_year t <=? 9999) &&
  (1 <=? dt_month t) && (dt_month t <=? 12) &&
  (1 <=? dt_day t) && (dt_day t <=? days_in_month (dt_year t) (dt_month t)) &&
  (0 <=? dt_hour t) && (dt_hour t <=? 23) &&
  (0 <=? dt_minute t) && (dt_minute t <=? 59) &&
  (0 <=? dt_second t) && (dt_second t <=? 59).

Definition strptime_iso (s : string) : option datetime :=
  match list_ascii_of_string s with
  | [y1; y2; y3; y4; c1; m1; m2; c2; d1; d2; c3;
     h1; h2; c4; n1; n2; c5; s1; s2; c6] =>
      if Ascii.eqb c1 "-" && Ascii.eqb c2 "-" && Ascii.eqb c3 "T" &&
         Ascii.eqb c4 ":" && Ascii.eqb c5 ":" && Ascii.eqb c6 "Z"
      then
        match number [y1; y2; y3; y4] 0, number [m1; m2] 0,
              number [d1; d2] 0, number [h1; h2] 0,
              number [n1; n2] 0, number [s1; s2] 0 with
        | Some y, Some m, Some d, Some h, Some n, Some sec =>
            let t := mkDatetime y m d h n sec in
            if valid_datetime t then Some t else None
        | _, _, _, _, _, _ => None
        end
      else None
  | _ => None
  end.

End Calendar.

Import Calendar.

(** ** Numbers *)

Definition Qlt_bool (a b : Q) : bool := negb (Qle_bool b a).

Definition Qsum (l : list Q) : Q := fold_right Qplus 0%Q l.

(** A float column that may hold the IEEE special values. *)
Inductive fnum : Type :=
| Fin (q : Q)
| PInf
| NInf
| NaN.

(** [a / b] on two finite columns: pandas does not raise on a zero divisor,
    it yields [inf], [-inf] or [NaN]. *)
Definition fdiv (a b : Q) : fnum :=
  if Qeq_bool b 0 then
    if Qeq_bool a 0 then NaN
    else if Qlt_bool 0 a then PInf else NInf
  else Fin (a / b).

(** [x * c] for a finite constant [c > 0]. *)
Definition fscale (x : fnum) (c : Q) : fnum :=
  match x with
  | Fin q => Fin (q * c)
  | other => other
  end.

(** [x < c] for a finite constant [c]; every comparison with NaN is false. *)
Definition flt (x : fnum) (c : Q) : bool :=
  match x with
  | Fin q => Qlt_bool q c
  | NInf => true
  | PInf | NaN => false
  end.




(** ** Tables *)

(** The weekly unlock record, the row type of the frames that
    [process_token_data] builds and that [preprocess_data] returns. *)
Record row : Type := mkRow {
  token : string;
  week : string;
  start_date : datetime;
  end_date : datetime;
  amount : Q;
  value_usd : Q
}.

(** A DataFrame of unlock records.  The empty list is the frame without
    rows; built by [pd.DataFrame([])] it has no columns either. *)
Definition DataFrame : Type := list row.

(** Rows of a [groupby(['week','token']).agg(sum).reset_index()]. *)
Record agg_row : Type := mkAgg {
  g_week : string;
  g_token : string;
  g_value_usd : Q;
  g_amount : Q
}.

(** Rows of [weekly_totals] once [total_week_value] and [percentage] are
    added. *)
Record pct_row : Type := mkPct {
  p_week : string;
  p_token : string;
  p_value_usd : Q;
  p_amount : Q;
  p_total_week_value : Q;
  p_percentage : fnum
}.

Section GroupBy.
Context {A K : Type}.
Variable key : A -> K.
Variable keqb : K -> K -> bool.
Variable kleb : K -> K -> bool.

(** [drop_duplicates()]: the first occurrence of each value, in order. *)
Fixpoint drop_duplicates (l : list K) : list K :=
  match l with
  | [] => []
  | k :: rest => k :: filter (fun k' => negb (keqb k' k)) (drop_duplicates rest)
  end.

Fixpoint insert_key (k : K) (l : list K) : list K :=
  match l with
  | [] => [k]
  | h :: rest => if kleb k h then k :: l else h :: insert_key k rest
  end.

Definition sort_keys (l : list K) : list K := fold_right insert_key [] l.

(** The group keys of [groupby]: distinct, in sorted order. *)
Definition group_keys (l : list A) : list K :=
  sort_keys (drop_duplicates (map key l)).

(** The rows of one group, in row order. *)
Definition group (k : K) (l : list A) : list A :=
  filter (fun r => keqb (key r) k) l.
End GroupBy.

Definition key2_eqb (a b : string * string) : bool :=
  String.eqb (fst a) (fst b) && String.eqb (snd a) (snd b).

Definition key2_leb (a b : string * string) : bool :=
  match String.compare (fst a) (fst b) with
  | Lt => true
  | Eq => String.leb (snd a) (snd b)
  | Gt => false
  end.

(** [df.groupby(['week','token']).agg({'value_usd':'sum','amount':'sum'})
       .reset_index()] *)
Definition groupby_week_token {A : Type} (wk tk : A -> string) (val amt : A -> Q)
    (df : list A) : list agg_row :=
  let key := fun r => (wk r, tk r) in
  map (fun k =>
         let g := group key key2_eqb k df in
         mkAgg (fst k) (snd k) (Qsum (map val g)) (Qsum (map amt g)))
      (group_keys key key2_eqb key2_leb df).

(** [df.groupby('week')['value_usd'].sum().reset_index()] *)
Definition groupby_week_sum (df : list agg_row) : list (string * Q) :=
  map (fun w => (w, Qsum (map g_value_usd (group g_week String.eqb w df))))
      (group_keys g_week String.eqb String.leb df).

(** [left.merge(right, on='week')]: inner join, every left row with every
    right row of the same week. *)
Definition merge_on_week {L R O : Type} (lweek : L -> string) (rweek : R -> string)
    (combine : L -> R -> O) (left : list L) (right : list R) : list O :=
  flat_map (fun l =>
              map (combine l)
                  (filter (fun r => String.eqb (rweek r) (lweek l)) right))
           left.

(** ** [preprocess_data] *)

Inductive exn : Type := KeyError | ValueError | RequestException.

Inductive result (A : Type) : Type :=
| Ok (a : A)
| Raise (e : exn).
Arguments Ok {A} a.
Arguments Raise {A} e.

Definition weekly_totals (data : DataFrame) : list agg_row :=
  groupby_week_token week token value_usd amount data.

Definition week_sums (data : DataFrame) : list (string * Q) :=
  groupby_week_sum (weekly_totals data).

(** [weekly_totals] after the merge with [week_sums] and the
    [percentage] column. *)
Definition weekly_totals_pct (data : DataFrame) : list pct_row :=
  merge_on_week g_week fst
    (fun g s =>
       let total_week_value := snd s in
       mkPct (g_week g) (g_token g) (g_value_usd g) (g_amount g)
             total_week_value
             (fscale (fdiv (g_value_usd g) total_week_value) 100))
    (weekly_totals data) (week_sums data).

(** [lambda x: 'OTHER' if x['percentage'] < 5 else x['token']] *)
Definition relabel (x : pct_row) : string :=
  if flt (p_percentage x) 5 then "OTHER"%string else p_token x.

Definition weekly_totals_relabelled (data : DataFrame) : list pct_row :=
  map (fun x => mkPct (p_week x) (relabel x) (p_value_usd x) (p_amount x)
                      (p_total_week_value x) (p_percentage x))
      (weekly_totals_pct data).

Definition grouped_data (data : DataFrame) : list agg_row :=
  groupby_week_token p_week p_token p_value_usd p_amount
    (weekly_totals_relabelled data).

Definition dates_eqb (a b : string * datetime * datetime) : bool :=
  String.eqb (fst (fst a)) (fst (fst b)) &&
  datetime_eqb (snd (fst a)) (snd (fst b)) &&
  datetime_eqb (snd a) (snd b).

(** [data[['week','start_date','end_date']].drop_duplicates()] *)
Definition dates_data (data : DataFrame) : list (string * datetime * datetime) :=
  drop_duplicates dates_eqb
    (map (fun r => (week r, start_date r, end_date r)) data).

Definition final_data (data : DataFrame) : DataFrame :=
  merge_on_week g_week (fun d => fst (fst d))
    (fun g d => mkRow (g_token g) (g_week g) (snd (fst d)) (snd d)
                      (g_amount g) (g_value_usd g))
    (grouped_data data) (dates_data data).

(** A frame without rows reaches [preprocess_data] only as the column-less
    [pd.DataFrame([])]; [groupby(['week','token'])] then raises [KeyError]. *)
Definition preprocess_data (data : DataFrame) : result DataFrame :=
  match data with
  | [] => Raise KeyError
  | _ :: _ => Ok (final_data data)
  end.

(** ** The API payload and [process_token_data] *)

Record allocation : Type := mkAllocation {
  unlockAmount : Q;
  unlockValue : Q
}.

Record emission_week : Type := mkEmissionWeek {
  startDate : string;
  endDate : string;
  allocations : list allocation
}.

(** What [requests.get] and [response.json().get("data")] can do. *)
Inductive http_outcome : Type :=
| RequestRaises
| HttpResponse (status_code : Z) (data : option (list emission_week)).

Inductive ui_event : Type :=
| ProgressNew
| StatusNew
| StatusText (s : string)
| ProgressSet (fraction : Q)
| Sleep
| StatusEmpty
| ProgressEmpty
| Warning (s : string)
| Error (s : string)
| Markdown (s : string)
| Metric (label : string) (value : Q)
| Chart (rows : DataFrame).

Section Pipeline.

(** [datetime.strptime(s, "%Y-%m-%dT%H:%M:%SZ")]; [None] is [ValueError]. *)
Variable strptime : string -> option datetime.

(** The emission endpoint: token id, API key |-> outcome of the request. *)
Variable emission_api : string -> string -> http_outcome.

Definition fetch_emission_data (token_id api_key : string)
    : result (option (list emission_week)) :=
  match emission_api token_id api_key with
  | RequestRaises => Raise RequestException
  | HttpResponse status_code data =>
      if negb (status_code =? 200) then Ok None else Ok data
  end.

(** The inner loop: one [data.append] per allocation. *)
Fixpoint allocation_loop (token_symbol week_id : string) (start_date end_date : datetime)
    (allocs : list allocation) (data : list row) : list row :=
  match allocs with
  | [] => data
  | allocation :: rest =>
      let unlock_amount := unlockAmount allocation in
      let unlock_value_usd := unlockValue allocation in
      allocation_loop token_symbol week_id start_date end_date rest
        (data ++ [mkRow token_symbol week_id start_date end_date
                        unlock_amount unlock_value_usd])
  end.

(** The outer loop over the emission weeks. *)
Fixpoint week_loop (token_symbol : string) (emission_data : list emission_week)
    (data : list row) : result (list row) :=
  match emission_data with
  | [] => Ok data
  | w :: rest =>
      match strptime (startDate w) with
      | None => Raise ValueError
      | Some start_date =>
          match strptime (endDate w) with
          | None => Raise ValueError
          | Some end_date =>
              let week_id := strftime_Y_W_V start_date in
              week_loop token_symbol rest
                (allocation_loop token_symbol week_id start_date end_date
                   (allocations w) data)
          end
      end
  end.

Definition process_token_data (emission_data : list emission_week)
    (token_symbol : string) : result DataFrame :=
  week_loop token_symbol emission_data [].

(** ** [load_selected_data] *)

(** The [for i, token_symbol in enumerate(selected_tokens)] loop.  The
    dictionary lookup is outside the [try], so a missing symbol raises;
    anything raised inside the [try] is reported by [st.warning] and the
    loop continues without touching the progress bar.  [if emission_data:]
    is false for [None] and for the empty list. *)
Fixpoint token_loop (api_key : string) (token_map : string -> option string)
    (total_tokens : Z) (i : Z) (selected_tokens : list string)
    (all_data : list DataFrame) (log : list ui_event)
    : result (list DataFrame) * list ui_event :=
  match selected_tokens with
  | [] => (Ok all_data, log)
  | token_symbol :: rest =>
      match token_map token_symbol with
      | None => (Raise KeyError, log)
      | Some token_id =>
          let log := log ++ [StatusText ("Processing " ++ token_symbol ++ "...")] in
          let handled :=
            log ++ [Warning ("Error processing " ++ token_symbol)] in
          let advanced :=
            log ++ [ProgressSet (inject_Z (i + 1) / inject_Z total_tokens); Sleep] in
          match fetch_emission_data token_id api_key with
          | Raise _ =>
              token_loop api_key token_map total_tokens (i + 1) rest all_data handled
          | Ok (Some ((_ :: _) as emission_data)) =>
              match process_token_data emission_data token_symbol with
              | Raise _ =>
                  token_loop api_key token_map total_tokens (i + 1) rest
                    all_data handled
              | Ok token_data =>
                  token_loop api_key token_map total_tokens (i + 1) rest
                    (all_data ++ [token_data]) advanced
              end
          | Ok (Some []) | Ok None =>
              token_loop api_key token_map total_tokens (i + 1) rest
                all_data advanced
          end
      end
  end.

(** [pd.concat(all_data, ignore_index=True)] *)
Definition pd_concat (all_data : list DataFrame) : DataFrame := List.concat all_data.

Definition load_selected_data (api_key : string) (selected_tokens : list string)
    (token_map : string -> option string)
    : result (option DataFrame) * list ui_event :=
  let total_tokens := Z.of_nat (List.length selected_tokens) in
  match token_loop api_key token_map total_tokens 0 selected_tokens []
          [ProgressNew; StatusNew] with
  | (Raise e, log) => (Raise e, log)
  | (Ok all_data, log) =>
      let log := log ++ [StatusEmpty; ProgressEmpty] in
      match all_data with
      | [] =>
          (Ok None,
           log ++ [Error "No data was loaded. Please check your selections and try again."])
      | _ :: _ =>
          match preprocess_data (pd_concat all_data) with
          | Raise e => (Raise e, log)
          | Ok final => (Ok (Some final), log)
          end
      end
  end.

End Pipeline.

(** ** [main]: the date-range filter and what follows it *)

(** [data[(data['start_date'].dt.date >= start_date) &
          (data['end_date'].dt.date <= end_date)]] *)
Definition date_range_filter (data : DataFrame) (start_sel end_sel : date) : DataFrame :=
  filter (fun r => date_leb start_sel (date_of (start_date r)) &&
                   date_leb (date_of (end_date r)) end_sel)
         data.

Definition week_value (data : DataFrame) (w : string) : Q :=
  Qsum (map value_usd (filter (fun r => String.eqb (week r) w) data)).

Definition week_amount (data : DataFrame) (w : string) : Q :=
  Qsum (map amount (filter (fun r => String.eqb (week r) w) data)).

(** [main] from the filter on, for the table in the session state and the
    two dates picked: the events shown.  The function returns normally on
    both branches. *)
Definition main_view (data : DataFrame) (start_sel end_sel : date) : list ui_event :=
  let filtered_data := date_range_filter data start_sel end_sel in
  match filtered_data with
  | [] => [Warning "No data available for the selected date range."]
  | _ :: _ =>
      let total_value := Qsum (map value_usd filtered_data) in
      let tokens := drop_duplicates String.eqb (map token filtered_data) in
      let non_other_tokens :=
        List.length (filter (fun t => negb (String.eqb t "OTHER")) tokens) in
      let weeks := group_keys week String.eqb String.leb filtered_data in
      let avg_weekly_value :=
        (Qsum (map (week_value filtered_data) weeks)
         / inject_Z (Z.of_nat (List.length weeks)))%Q in
      [Markdown "### Key Metrics";
       Metric "Total Value" total_value;
       Metric "Significant Tokens" (inject_Z (Z.of_nat non_other_tokens));
       Metric "Average Weekly Value" avg_weekly_value;
       Markdown "### Weekly Token Unlocks";
       Chart filtered_data]
  end.

(** ** [main]: the token map, the selection and the default date range *)

(** An entry of the token list the API returns. *)
Record api_token : Type := mkToken { tok_symbol : string; tok_id : string }.

(** A Python dict from strings to strings: its items in insertion order. *)
Definition dict : Type := list (string * string).

(** [d[k] = v]: an existing key keeps its place and takes the new value, a
    new key goes to the end. *)
Fixpoint dict_set (k v : string) (d : dict) : dict :=
  match d with
  | [] => [(k, v)]
  | (k', v') :: rest =>
      if String.eqb k' k then (k', v) :: rest else (k', v') :: dict_set k v rest
  end.

(** [d[k]]; [None] is [KeyError]. *)
Fixpoint dict_get (k : string) (d : dict) : option string :=
  match d with
  | [] => None
  | (k', v') :: rest => if String.eqb k' k then Some v' else dict_get k rest
  end.

(** [{token["symbol"]: token["id"] for token in tokens}] *)
Definition token_map_of (tokens : list api_token) : dict :=
  fold_left (fun d token => dict_set (tok_symbol token) (tok_id token) d) tokens [].

(** [list(token_map.keys())] *)
Definition token_list (tokens : list api_token) : list string :=
  map fst (token_map_of tokens).

(** [token_list[:5]], the default of the multiselect. *)
Definition default_tokens (tokens : list api_token) : list string :=
  firstn 5 (token_list tokens).

(** The selection: every token when "Select All" is ticked, else what the
    multiselect returns. *)
Definition selected_tokens (all_selected : bool) (chosen : list string)
    (tokens : list api_token) : list string :=
  if all_selected then token_list tokens else chosen.

(** Timestamps compare as (year, month, day, hour, minute, second). *)
Definition datetime_leb (a b : datetime) : bool :=
  (dt_year a <? dt_year b) ||
  ((dt_year a =? dt_year b) &&
   ((dt_month a <? dt_month b) ||
    ((dt_month a =? dt_month b) &&
     ((dt_day a <? dt_day b) ||
      ((dt_day a =? dt_day b) &&
       ((dt_hour a <? dt_hour b) ||
        ((dt_hour a =? dt_hour b) &&
         ((dt_minute a <? dt_minute b) ||
          ((dt_minute a =? dt_minute b) &&
           (dt_second a <=? dt_second b)))))))))).

(** [Series.min()] and [Series.max()] of a column of timestamps. *)
Definition series_min (l : list datetime) : option datetime :=
  match l with
  | [] => None
  | x :: rest => Some (fold_left (fun m y => if datetime_leb y m then y else m) rest x)
  end.

Definition series_max (l : list datetime) : option datetime :=
  match l with
  | [] => None
  | x :: rest => Some (fold_left (fun m y => if datetime_leb m y then y else m) rest x)
  end.

(** The values the two date inputs start with:
    [data['start_date'].min().date()] and [data['end_date'].max().date()]. *)
Definition default_range (data : DataFrame) : option (date * date) :=
  match series_min (map start_date data), series_max (map end_date data) with
  | Some s, Some e => Some (date_of s, date_of e)
  | _, _ => None
  end.

(** ** Notions the statements use *)

Definition agg_key (g : agg_row) : string * string := (g_week g, g_token g).

Definition row_key (r : row) : string * string := (week r, token r).

(** The total of a week as [week_sums] computes it. *)
Definition week_total (data : DataFrame) (w : string) : Q :=
  Qsum (map g_value_usd (group g_week String.eqb w (weekly_totals data))).

Definition group_value (data : DataFrame) (w t : string) : Q :=
  Qsum (map value_usd
            (filter (fun r => String.eqb (week r) w && String.eqb (token r) t) data)).




Definition week_dates (data : DataFrame) (w : string)
    : list (string * datetime * datetime) :=
  filter (fun d => String.eqb (fst (fst d)) w) (dates_data data).

Definition final_row (g : agg_row) (d : string * datetime * datetime) : row :=
  mkRow (g_token g) (g_week g) (snd (fst d)) (snd d) (g_amount g) (g_value_usd g).

Section FlattenSpec.
Variable strptime : string -> option datetime.

(** The rows one emission week stands for: one per allocation. *)
Definition week_rows (token_symbol : string) (w : emission_week) : list row :=
  match strptime (startDate w), strptime (endDate w) with
  | Some start_date, Some end_date =>
      map (fun a => mkRow token_symbol (strftime_Y_W_V start_date)
                          start_date end_date (unlockAmount a) (unlockValue a))
          (allocations w)
  | _, _ => []
  end.

Definition dates_parse (w : emission_week) : Prop :=
  strptime (startDate w) <> None /\ strptime (endDate w) <> None.
End FlattenSpec.

Definition date_le (a b : date) : Prop :=
  d_year a < d_year b \/
  (d_year a = d_year b /\
   (d_month a < d_month b \/ (d_month a = d_month b /\ d_day a <= d_day b))).

Definition date_lt (a b : date) : Prop :=
  d_year a < d_year b \/
  (d_year a = d_year b /\
   (d_month a < d_month b \/ (d_month a = d_month b /\ d_day a < d_day b))).

Definition in_range (start_sel end_sel : date) (r : row) : Prop :=
  date_le start_sel (date_of (start_date r)) /\
  date_le (date_of (end_date r)) end_sel.

Definition is_alert (e : ui_event) : bool :=
  match e with
  | Warning _ | Error _ => true
  | _ => false
  end.

(** The warnings and errors of a log, in order. *)
Definition alerts (log : list ui_event) : list ui_event := filter is_alert log.

(** What [load_selected_data] returns and alerts, from the outcome of its
    loop. *)
Definition load_outcome (collected : result (list DataFrame))
    : result (option DataFrame) :=
  match collected with
  | Raise e => Raise e
  | Ok [] => Ok None
  | Ok (df :: rest) =>
      match preprocess_data (pd_concat (df :: rest)) with
      | Raise e => Raise e
      | Ok final => Ok (Some final)
      end
  end.

Definition load_alerts (collected : result (list DataFrame)) : list ui_event :=
  match collected with
  | Ok [] =>
      [Error "No data was loaded. Please check your selections and try again."]
  | _ => []
  end.

Definition pct_key (x : pct_row) : string * string := (p_week x, p_token x).




Definition no_data_message : string :=
  "No data was loaded. Please check your selections and try again.".

Definition token_step (d : dict) (token : api_token) : dict :=
  dict_set (tok_symbol token) (tok_id token) d.

Definition key2_le (a b : string * string) : Prop := key2_leb a b = true.

Section LoadSpecDefs.
Variable strptime : string -> option datetime.
Variable emission_api : string -> string -> http_outcome.
Variable api_key : string.
Variable token_map : string -> option string.

(** The table a selected token adds to [all_data], if it adds one. *)
Definition token_table (token_symbol : string) : option DataFrame :=
  match token_map token_symbol with
  | None => None
  | Some token_id =>
      match fetch_emission_data emission_api token_id api_key with
      | Ok (Some ((_ :: _) as weeks)) =>
          match process_token_data strptime weeks token_symbol with
          | Ok token_data => Some token_data
          | Raise _ => None
          end
      | _ => None
      end
  end.

(** Whether something is raised inside the [try] for a selected token. *)
Definition token_fails (token_symbol : string) : bool :=
  match token_map token_symbol with
  | None => false
  | Some token_id =>
      match fetch_emission_data emission_api token_id api_key with
      | Raise _ => true
      | Ok (Some ((_ :: _) as weeks)) =>
          match process_token_data strptime weeks token_symbol with
          | Ok _ => false
          | Raise _ => true
          end
      | Ok _ => false
      end
  end.

Definition collected_tables (selected_tokens : list string) : list DataFrame :=
  flat_map (fun s => match token_table s with Some t => [t] | None => [] end)
           selected_tokens.

Definition warnings_of (selected_tokens : list string) : list ui_event :=
  map (fun s => Warning ("Error processing " ++ s)) (filter token_fails selected_tokens).

(** A token whose request returns weeks with parsing dates and not one
    allocation. *)
Definition only_empty_weeks (token_symbol : string) : Prop :=
  exists token_id w ws,
    token_map token_symbol = Some token_id /\
    fetch_emission_data emission_api token_id api_key = Ok (Some (w :: ws)) /\
    Forall (dates_parse strptime) (w :: ws) /\
    Forall (fun wk => allocations wk = []) (w :: ws).
End LoadSpecDefs.

(** ** Running example: one token, a schedule that spans the year 2024 *)

Definition abc_emission : list emission_week :=
  [ mkEmissionWeek "2024-01-01T00:00:00Z" "2024-01-08T00:00:00Z"
      [mkAllocation 10 100];
    mkEmissionWeek "2024-12-30T00:00:00Z" "2025-01-06T00:00:00Z"
      [mkAllocation 20 200] ].

Definition abc_api (token_id api_key : string) : http_outcome :=
  if String.eqb token_id "id-abc" then HttpResponse 200 (Some abc_emission)
  else if String.eqb token_id "id-new" then HttpResponse 200 (Some [])
  else HttpResponse 404 None.

Definition abc_map (symbol : string) : option string :=
  if String.eqb symbol "ABC" then Some "id-abc"%string
  else if String.eqb symbol "NEW" then Some "id-new"%string
  else None.


(** A week whose only row has a negative value. *)
Definition negative_week : DataFrame :=
  [ mkRow "NEG" "2024-W03" (mkDatetime 2024 1 15 0 0 0) (mkDatetime 2024 1 22 0 0 0)
          1 (-10 # 1) ].

Definition abc_data : DataFrame :=
  [ mkRow "ABC" "2024-W01" (mkDatetime 2024 1 1 0 0 0) (mkDatetime 2024 1 8 0 0 0)
          10 100;
    mkRow "ABC" "2024-W01" (mkDatetime 2024 12 30 0 0 0) (mkDatetime 2025 1 6 0 0 0)
          20 200 ].

(** Three weeks of a combined table: in 2024-W01 token A holds 102 of 107,
    B and C stay below 5%; 2023-W52 splits 5 to 95. *)
Definition sample_data : DataFrame :=
  [ mkRow "A" "2024-W01" (mkDatetime 2024 1 1 0 0 0) (mkDatetime 2024 1 8 0 0 0) 10 100;
    mkRow "B" "2024-W01" (mkDatetime 2024 1 1 0 0 0) (mkDatetime 2024 1 8 0 0 0) 1 3;
    mkRow "C" "2024-W01" (mkDatetime 2024 1 1 0 0 0) (mkDatetime 2024 1 8 0 0 0) 1 2;
    mkRow "A" "2024-W01" (mkDatetime 2024 1 1 0 0 0) (mkDatetime 2024 1 8 0 0 0) 1 2;
    mkRow "A" "2024-W02" (mkDatetime 2024 1 8 0 0 0) (mkDatetime 2024 1 15 0 0 0) 1 7;
    mkRow "A" "2023-W52" (mkDatetime 2023 12 25 0 0 0) (mkDatetime 2024 1 1 0 0 0) 1 5;
    mkRow "Z" "2023-W52" (mkDatetime 2023 12 25 0 0 0) (mkDatetime 2024 1 1 0 0 0) 1 95 ].

Definition bad_date_emission : list emission_week :=
  [ mkEmissionWeek "2024-01-01T00:00:00Z" "2024-01-08T00:00:00Z"
      [mkAllocation 10 100];
    mkEmissionWeek "2024-01-08" "2024-01-15T00:00:00Z" [mkAllocation 20 200] ].

Definition hollow_api (token_id api_key : string) : http_outcome :=
  HttpResponse 200
    (Some [mkEmissionWeek "2024-01-01T00:00:00Z" "2024-01-08T00:00:00Z" []]).

Definition sample_tokens : list api_token :=
  [ mkToken "ARB" "id-1"; mkToken "OP" "id-2"; mkToken "ARB" "id-3" ].

(** * Proofs *)

(** ** The calendar on known dates *)

Example strftime_Y_W_V_known :
  map (fun d => strftime_Y_W_V (mkDatetime (d_year d) (d_month d) (d_day d) 0 0 0))
      [mkDate 2021 1 3; mkDate 2021 1 4; mkDate 2018 12 31; mkDate 2016 1 1;
       mkDate 2024 12 29; mkDate 2000 2 29; mkDate 2026 11 4]
  = ["2021-W53"; "2021-W01"; "2018-W01"; "2016-W53";
     "2024-W52"; "2000-W09"; "2026-W45"]%string.
Proof. reflexivity. Qed.

Example strptime_iso_known :
  strptime_iso "2024-12-30T00:00:00Z" = Some (mkDatetime 2024 12 30 0 0 0) /\
  strptime_iso "2024-02-30T00:00:00Z" = None /\
  strptime_iso "2024-12-30 00:00:00" = None.
Proof. repeat split; reflexivity. Qed.

(** ** Sums of rationals *)





Lemma filter_map_swap {A B : Type} (f : A -> B) (p : B -> bool) (l : list A) :
  filter p (map f l) = map f (filter (fun x => p (f x)) l).
Proof.
  induction l as [|x l IH]; simpl; [reflexivity|].
  destruct (p (f x)); simpl; now rewrite IH.
Qed.

Lemma filter_all {A : Type} (p : A -> bool) (l : list A) :
  (forall x, p x = true) -> filter p l = l.
Proof.
  intros Hp. induction l as [|x l IH]; simpl; [reflexivity|].
  now rewrite Hp, IH.
Qed.

Lemma filter_none {A : Type} (p : A -> bool) (l : list A) :
  (forall x, p x = false) -> filter p l = [].
Proof.
  intros Hp. induction l as [|x l IH]; simpl; [reflexivity|].
  now rewrite Hp.
Qed.

(** ** Group keys and group sums *)

Section GroupByFacts.
Context {A K : Type}.
Variable key : A -> K.
Variable keqb : K -> K -> bool.
Variable kleb : K -> K -> bool.
Hypothesis keqb_spec : forall a b, keqb a b = true <-> a = b.

Lemma keqb_refl (k : K) : keqb k k = true.
Proof. now apply keqb_spec. Qed.

Lemma In_drop_duplicates (k : K) (l : list K) :
  In k (drop_duplicates keqb l) <-> In k l.
Proof.
  induction l as [|a l IH]; simpl; [tauto|].
  rewrite filter_In, IH. split.
  - intros [->|[H _]]; auto.
  - intros [->|H]; auto.
    destruct (keqb k a) eqn:E.
    + apply keqb_spec in E. auto.
    + right. split; auto.
Qed.

Lemma NoDup_drop_duplicates (l : list K) : NoDup (drop_duplicates keqb l).
Proof.
  induction l as [|a l IH]; simpl; constructor.
  - rewrite filter_In. intros [_ H]. now rewrite keqb_refl in H.
  - now apply NoDup_filter.
Qed.

Lemma insert_key_perm (k : K) (l : list K) :
  Permutation (insert_key kleb k l) (k :: l).
Proof.
  induction l as [|h l IH]; simpl; [reflexivity|].
  destruct (kleb k h); [reflexivity|].
  rewrite IH. apply perm_swap.
Qed.

Lemma sort_keys_perm (l : list K) : Permutation (sort_keys kleb l) l.
Proof.
  induction l as [|k l IH]; simpl; [reflexivity|].
  rewrite insert_key_perm. now constructor.
Qed.

Lemma NoDup_group_keys (l : list A) : NoDup (group_keys key keqb kleb l).
Proof.
  unfold group_keys.
  eapply Permutation_NoDup.
  - symmetry. apply sort_keys_perm.
  - apply NoDup_drop_duplicates.
Qed.

Lemma In_group_keys (k : K) (l : list A) :
  In k (group_keys key keqb kleb l) <-> In k (map key l).
Proof.
  unfold group_keys. split; intros H.
  - apply In_drop_duplicates.
    eapply Permutation_in; [apply sort_keys_perm | exact H].
  - eapply Permutation_in; [symmetry; apply sort_keys_perm |].
    now apply In_drop_duplicates.
Qed.



End GroupByFacts.

(** In a keyed table with distinct keys, a key selects its one row. *)
Lemma filter_unique_key {K V : Type} (keqb : K -> K -> bool)
    (keqb_spec : forall a b, keqb a b = true <-> a = b)
    (F : K -> V) (ks : list K) (k : K) :
  NoDup ks -> In k ks ->
  filter (fun s => keqb (fst s) k) (map (fun k' => (k', F k')) ks) = [(k, F k)].
Proof.
  induction 1 as [|a ks Ha Hnd IH]; simpl; [tauto|].
  intros [->|Hin].
  - rewrite (proj2 (keqb_spec k k) eq_refl). f_equal.
    clear IH. induction ks as [|b ks IHks]; simpl; [reflexivity|].
    destruct (keqb b k) eqn:E.
    + apply keqb_spec in E. subst b. exfalso. apply Ha. now left.
    + apply IHks.
      * intros H. apply Ha. now right.
      * now inversion Hnd.
  - destruct (keqb a k) eqn:E.
    + apply keqb_spec in E. subst a. contradiction.
    + now apply IH.
Qed.

(** ** Facts about the stages of [preprocess_data] *)

Lemma key2_eqb_spec (a b : string * string) : key2_eqb a b = true <-> a = b.
Proof.
  destruct a as [a1 a2], b as [b1 b2]. unfold key2_eqb. simpl.
  rewrite andb_true_iff, !String.eqb_eq. split.
  - intros [-> ->]. reflexivity.
  - intros H. inversion H. auto.
Qed.

Lemma datetime_eqb_spec (a b : datetime) : datetime_eqb a b = true <-> a = b.
Proof.
  destruct a, b. unfold datetime_eqb. simpl.
  rewrite !andb_true_iff, !Z.eqb_eq. split.
  - intros [[[[[-> ->] ->] ->] ->] ->]. reflexivity.
  - intros H. inversion H. repeat split.
Qed.

Lemma dates_eqb_spec (a b : string * datetime * datetime) :
  dates_eqb a b = true <-> a = b.
Proof.
  destruct a as [[a1 a2] a3], b as [[b1 b2] b3]. unfold dates_eqb. simpl.
  rewrite !andb_true_iff, String.eqb_eq, !datetime_eqb_spec. split.
  - intros [[-> ->] ->]. reflexivity.
  - intros H. inversion H. auto.
Qed.

Section GroupByWeekToken.
Context {A : Type}.
Variables (wk tk : A -> string) (val amt : A -> Q).

Let key := fun r : A => (wk r, tk r).

Lemma groupby_week_token_keys (df : list A) :
  map agg_key (groupby_week_token wk tk val amt df)
  = group_keys key key2_eqb key2_leb df.
Proof.
  unfold groupby_week_token. rewrite map_map. fold key.
  rewrite <- (map_id (group_keys key key2_eqb key2_leb df)) at 2.
  apply map_ext. intros [w t]. reflexivity.
Qed.

Lemma groupby_week_token_NoDup (df : list A) :
  NoDup (map agg_key (groupby_week_token wk tk val amt df)).
Proof.
  rewrite groupby_week_token_keys.
  apply NoDup_group_keys, key2_eqb_spec.
Qed.




End GroupByWeekToken.


Lemma week_sums_lookup (data : DataFrame) (g : agg_row) :
  In g (weekly_totals data) ->
  filter (fun s => String.eqb (fst s) (g_week g)) (week_sums data)
  = [(g_week g, week_total data (g_week g))].
Proof.
  intros Hg. unfold week_sums, groupby_week_sum, week_total.
  apply (filter_unique_key String.eqb String.eqb_eq
           (fun w => Qsum (map g_value_usd
                               (group g_week String.eqb w (weekly_totals data))))).
  - apply NoDup_group_keys, String.eqb_eq.
  - apply In_group_keys; [apply String.eqb_eq | now apply in_map].
Qed.

(** The merge with [week_sums] is one-to-one: every row of
    [weekly_totals] meets the one total of its week. *)
Lemma weekly_totals_pct_eq (data : DataFrame) :
  weekly_totals_pct data
  = map (fun g =>
           mkPct (g_week g) (g_token g) (g_value_usd g) (g_amount g)
                 (week_total data (g_week g))
                 (fscale (fdiv (g_value_usd g) (week_total data (g_week g))) 100))
        (weekly_totals data).
Proof.
  unfold weekly_totals_pct, merge_on_week.
  rewrite flat_map_concat_map.
  erewrite map_ext_in.
  2:{ intros g Hg. rewrite (week_sums_lookup data g Hg). simpl. reflexivity. }
  rewrite <- flat_map_concat_map.
  induction (weekly_totals data) as [|g l IH]; simpl; [reflexivity|].
  now rewrite IH.
Qed.

(** ** The percentage column and the 5% threshold *)









Example sample_data_relabelled :
  map (fun x => (p_week x, p_token x)) (weekly_totals_relabelled sample_data)
  = [("2023-W52", "A"); ("2023-W52", "Z"); ("2024-W01", "A");
     ("2024-W01", "OTHER"); ("2024-W01", "OTHER"); ("2024-W02", "A")]%string.
Proof. reflexivity. Qed.

(** Where the week's total is negative the two readings part: the code
    tests the share.  A lone row of value -10 is the whole of its week and
    keeps its label, although -10 is below 5% of -10. *)
Example negative_total_uses_share :
  map p_token (weekly_totals_relabelled negative_week) = ["NEG"%string] /\
  Qlt_bool (group_value negative_week "2024-W03" "NEG" /
            week_value negative_week "2024-W03") (5 # 100) = false /\
  Qlt_bool (group_value negative_week "2024-W03" "NEG")
           ((5 # 100) * week_value negative_week "2024-W03") = true.
Proof. repeat split; reflexivity. Qed.




(** ** The re-aggregation and the merge with the dates *)




Section Merge.
Context {L R O : Type}.
Variables (lweek : L -> string) (rweek : R -> string) (combine : L -> R -> O).
Variables (po : O -> bool) (pl : L -> bool) (w : string).
Hypothesis po_combine : forall l r, po (combine l r) = pl l.
Hypothesis pl_week : forall l, pl l = true -> lweek l = w.

(** The rows of a merge selected by a test on the left row of week [w]:
    each selected left row, once per right row of that week. *)
Lemma filter_merge_on_week (left : list L) (right : list R) :
  filter po (merge_on_week lweek rweek combine left right)
  = flat_map (fun l => map (combine l)
                           (filter (fun r => String.eqb (rweek r) w) right))
             (filter pl left).
Proof.
  unfold merge_on_week.
  induction left as [|l left IH]; simpl; [reflexivity|].
  rewrite filter_app, IH, filter_map_swap.
  destruct (pl l) eqn:Hl; simpl.
  - f_equal. rewrite (pl_week l Hl). f_equal.
    apply filter_all. intros r. now rewrite po_combine.
  - rewrite filter_none; [reflexivity|].
    intros r. now rewrite po_combine.
Qed.
End Merge.

Lemma final_data_filter (data : DataFrame) (po : row -> bool) (pl : agg_row -> bool)
    (w : string) :
  (forall g d, po (final_row g d) = pl g) ->
  (forall g, pl g = true -> g_week g = w) ->
  filter po (final_data data)
  = flat_map (fun g => map (final_row g) (week_dates data w))
             (filter pl (grouped_data data)).
Proof.
  intros H1 H2. unfold final_data, week_dates.
  exact (filter_merge_on_week g_week (fun d => fst (fst d)) final_row po pl w H1 H2
           (grouped_data data) (dates_data data)).
Qed.





Lemma filter_none_in {A : Type} (p : A -> bool) (l : list A) :
  (forall x, In x l -> p x = false) -> filter p l = [].
Proof.
  induction l as [|x l IH]; simpl; intros Hp; [reflexivity|].
  rewrite (Hp x (or_introl eq_refl)). apply IH. intros y Hy. apply Hp. now right.
Qed.

Lemma filter_key_NoDup {A K : Type} (f : A -> K) (keqb : K -> K -> bool)
    (keqb_spec : forall a b, keqb a b = true <-> a = b) (k : K) (l : list A) :
  NoDup (map f l) ->
  (List.length (filter (fun x => keqb (f x) k) l) <= 1)%nat.
Proof.
  induction l as [|x l IH]; simpl; intros Hnd; [lia|].
  inversion Hnd as [|? ? Hx Hl]; subst.
  destruct (keqb (f x) k) eqn:E; [|now apply IH].
  apply keqb_spec in E. subst k. simpl.
  rewrite filter_none_in; [simpl; lia|].
  intros y Hy. destruct (keqb (f y) (f x)) eqn:E; [|reflexivity].
  apply keqb_spec in E. exfalso. apply Hx. rewrite <- E. now apply in_map.
Qed.

(** The returned table has, for a (week, token) pair, at most as many rows
    as the week has distinct (start_date, end_date) pairs in the input. *)
Lemma final_data_rows_per_key (data : DataFrame) (k : string * string) :
  (List.length (filter (fun r => key2_eqb (row_key r) k) (final_data data))
   <= List.length (week_dates data (fst k)))%nat.
Proof.
  rewrite (final_data_filter data _ (fun g => key2_eqb (agg_key g) k) (fst k)).
  - assert (H := filter_key_NoDup agg_key key2_eqb key2_eqb_spec k
                   (grouped_data data)
                   (groupby_week_token_NoDup _ _ _ _ _)).
    destruct (filter _ (grouped_data data)) as [|g [|g' l]]; simpl in *.
    + lia.
    + rewrite app_nil_r, length_map. lia.
    + lia.
  - reflexivity.
  - intros g Hg. apply key2_eqb_spec in Hg. now rewrite <- Hg.
Qed.

Lemma final_data_single_dates_key (data : DataFrame) (k : string * string) :
  List.length (week_dates data (fst k)) = 1%nat ->
  (List.length (filter (fun r => key2_eqb (row_key r) k) (final_data data)) <= 1)%nat.
Proof. intros H. rewrite <- H. apply final_data_rows_per_key. Qed.

(** ** The week-id collision at the turn of a year *)

Lemma abc_data_flattened :
  process_token_data strptime_iso abc_emission "ABC" = Ok abc_data.
Proof. reflexivity. Qed.

(** C1, at the failing input. One token with a weekly schedule through 2024:
    the weeks that start on 2024-01-01 and on 2024-12-30 both get the id
    2024-W01.  The input rows of that week are worth 300; the table that
    [preprocess_data] returns holds the aggregated row twice, once per
    (start_date, end_date) pair, and the week is worth 600. *)
Theorem preprocess_data_doubles_week_value :
  process_token_data strptime_iso abc_emission "ABC" = Ok abc_data /\
  exists out,
    preprocess_data abc_data = Ok out /\
    (week_value abc_data "2024-W01" == 300)%Q /\
    (week_value out "2024-W01" == 600)%Q /\
    ~ (week_value out "2024-W01" == week_value abc_data "2024-W01")%Q.
Proof.
  split; [reflexivity|].
  eexists. split; [reflexivity|].
  split; [reflexivity|]. split; [reflexivity|].
  vm_compute. discriminate.
Qed.

(** C6, at the failing input. For the same schedule the returned table has
    two rows for the pair (2024-W01, ABC). *)
Theorem preprocess_data_repeats_week_token :
  exists out,
    preprocess_data abc_data = Ok out /\
    List.length (filter (fun r => key2_eqb (row_key r) ("2024-W01", "ABC")%string) out)
    = 2%nat /\
    ~ NoDup (map row_key out).
Proof.
  eexists. split; [reflexivity|]. split; [reflexivity|].
  vm_compute. intros H. inversion H as [|? ? Hin _]. apply Hin. now left.
Qed.

(** C8, at the failing input. For the same schedule the input rows of week
    2024-W01 amount to 30 and the rows of the returned table to 60. *)
Theorem preprocess_data_doubles_week_amount :
  exists out,
    preprocess_data abc_data = Ok out /\
    (week_amount abc_data "2024-W01" == 30)%Q /\
    (week_amount out "2024-W01" == 60)%Q /\
    ~ (week_amount out "2024-W01" == week_amount abc_data "2024-W01")%Q.
Proof.
  eexists. split; [reflexivity|].
  split; [reflexivity|]. split; [reflexivity|].
  vm_compute. discriminate.
Qed.

(** ** [process_token_data] flattens *)

Section Flatten.
Variable strptime : string -> option datetime.

Lemma allocation_loop_spec (s wid : string) (sd ed : datetime)
    (allocs : list allocation) (data : list row) :
  allocation_loop s wid sd ed allocs data
  = data ++ map (fun a => mkRow s wid sd ed (unlockAmount a) (unlockValue a)) allocs.
Proof.
  revert data. induction allocs as [|a allocs IH]; intros data; simpl.
  - now rewrite app_nil_r.
  - rewrite IH, <- app_assoc. reflexivity.
Qed.

Lemma week_loop_spec (s : string) (e : list emission_week) (data : list row) :
  Forall (dates_parse strptime) e ->
  week_loop strptime s e data = Ok (data ++ flat_map (week_rows strptime s) e).
Proof.
  intros H. revert data.
  induction H as [|w e [Hs He] _ IH]; intros data; simpl.
  - now rewrite app_nil_r.
  - unfold week_rows.
    destruct (strptime (startDate w)) as [sd|]; [|congruence].
    destruct (strptime (endDate w)) as [ed|]; [|congruence].
    rewrite IH, allocation_loop_spec, <- app_assoc. reflexivity.
Qed.

Lemma week_loop_parses (s : string) (e : list emission_week) (data rows : list row) :
  week_loop strptime s e data = Ok rows -> Forall (dates_parse strptime) e.
Proof.
  revert data. induction e as [|w e IH]; intros data; simpl; [constructor|].
  destruct (strptime (startDate w)) as [sd|] eqn:Hs; [|discriminate].
  destruct (strptime (endDate w)) as [ed|] eqn:He; [|discriminate].
  intros H. constructor.
  - unfold dates_parse. rewrite Hs, He. split; discriminate.
  - eapply IH, H.
Qed.

Lemma length_flat_map_week_rows (s : string) (e : list emission_week) :
  Forall (dates_parse strptime) e ->
  List.length (flat_map (week_rows strptime s) e)
  = list_sum (map (fun w => List.length (allocations w)) e).
Proof.
  induction 1 as [|w e [Hs He] _ IH]; simpl; [reflexivity|].
  rewrite length_app, IH. f_equal. unfold week_rows.
  destruct (strptime (startDate w)); [|congruence].
  destruct (strptime (endDate w)); [|congruence].
  apply length_map.
Qed.

Lemma week_rows_token (s : string) (e : list emission_week) :
  Forall (fun r => token r = s /\ week r = strftime_Y_W_V (start_date r))
         (flat_map (week_rows strptime s) e).
Proof.
  apply Forall_forall. intros r Hr.
  apply in_flat_map in Hr. destruct Hr as [w [_ Hr]].
  unfold week_rows in Hr.
  destruct (strptime (startDate w)); [|contradiction].
  destruct (strptime (endDate w)); [|contradiction].
  apply in_map_iff in Hr. destruct Hr as [a [<- _]]. now split.
Qed.

Lemma process_token_data_rows (e : list emission_week) (s : string)
    (rows : list row) :
  process_token_data strptime e s = Ok rows ->
  Forall (dates_parse strptime) e /\ rows = flat_map (week_rows strptime s) e.
Proof.
  unfold process_token_data. intros Hrows.
  assert (Hp := week_loop_parses _ _ _ _ Hrows).
  rewrite (week_loop_spec _ _ _ Hp) in Hrows. simpl in Hrows.
  inversion Hrows. now split.
Qed.

(** C7. When the dates of every week parse, [process_token_data] returns;
    and whenever it returns, the table is the weeks' allocations in order,
    each allocation as one row that carries the given symbol, the week's
    id and dates, the allocation's unlockAmount as amount and its
    unlockValue as value_usd. *)
Theorem process_token_data_flattens (emission_data : list emission_week)
    (token_symbol : string) :
  (Forall (dates_parse strptime) emission_data ->
   process_token_data strptime emission_data token_symbol
   = Ok (flat_map (week_rows strptime token_symbol) emission_data)) /\
  (forall rows,
     process_token_data strptime emission_data token_symbol = Ok rows ->
     rows = flat_map (week_rows strptime token_symbol) emission_data /\
     List.length rows
     = list_sum (map (fun w => List.length (allocations w)) emission_data) /\
     Forall (fun r => token r = token_symbol) rows).
Proof.
  split.
  - intros H. unfold process_token_data. now rewrite week_loop_spec.
  - intros rows Hrows.
    apply process_token_data_rows in Hrows. destruct Hrows as [Hp ->].
    split; [reflexivity|]. split.
    + now apply length_flat_map_week_rows.
    + eapply Forall_impl; [|apply week_rows_token]. now intros r [H _].
Qed.
End Flatten.

Lemma process_token_data_flattens_witness :
  Forall (dates_parse strptime_iso) abc_emission /\
  process_token_data strptime_iso abc_emission "ABC"
  = Ok (flat_map (week_rows strptime_iso "ABC") abc_emission).
Proof.
  assert (H : Forall (dates_parse strptime_iso) abc_emission).
  { repeat (constructor; [split; vm_compute; discriminate|]). constructor. }
  split; [exact H|].
  exact (proj1 (process_token_data_flattens strptime_iso abc_emission "ABC") H).
Defined.

(** ** The week identifier *)




(** ** The date-range filter of [main] *)

Lemma date_leb_spec (a b : date) : date_leb a b = true <-> date_le a b.
Proof.
  unfold date_leb, date_le.
  rewrite !orb_true_iff, !andb_true_iff, !orb_true_iff, !andb_true_iff,
          !Z.ltb_lt, !Z.eqb_eq, Z.leb_le.
  tauto.
Qed.

Lemma date_lt_not_le (a b : date) : date_lt a b -> ~ date_le b a.
Proof. unfold date_lt, date_le. lia. Qed.

Lemma date_range_filter_In (data : DataFrame) (start_sel end_sel : date) (r : row) :
  In r (date_range_filter data start_sel end_sel)
  <-> In r data /\ in_range start_sel end_sel r.
Proof.
  unfold date_range_filter, in_range.
  now rewrite filter_In, andb_true_iff, !date_leb_spec.
Qed.

(** C4. When no row of the table lies in the selected range, the filtered
    table is empty and [main] shows the warning and nothing else: no error,
    no metric, no chart. *)
Theorem empty_range_warns (data : DataFrame) (start_sel end_sel : date) :
  (forall r, In r data -> ~ in_range start_sel end_sel r) ->
  date_range_filter data start_sel end_sel = [] /\
  main_view data start_sel end_sel
  = [Warning "No data available for the selected date range."].
Proof.
  intros Hnone.
  assert (Hempty : date_range_filter data start_sel end_sel = []).
  { destruct (date_range_filter data start_sel end_sel) as [|r l] eqn:E;
      [reflexivity|].
    assert (Hr : In r (date_range_filter data start_sel end_sel))
      by (rewrite E; now left).
    apply date_range_filter_In in Hr. destruct Hr as [Hin Hr].
    exfalso. exact (Hnone r Hin Hr). }
  split; [exact Hempty|].
  unfold main_view. now rewrite Hempty.
Qed.

Lemma empty_range_warns_witness :
  (forall r, In r abc_data -> ~ in_range (mkDate 2030 1 1) (mkDate 2030 12 31) r) /\
  date_range_filter abc_data (mkDate 2030 1 1) (mkDate 2030 12 31) = [] /\
  main_view abc_data (mkDate 2030 1 1) (mkDate 2030 12 31)
  = [Warning "No data available for the selected date range."].
Proof.
  assert (H : forall r, In r abc_data ->
                        ~ in_range (mkDate 2030 1 1) (mkDate 2030 12 31) r).
  { intros r [<-|[<-|[]]]; unfold in_range, date_le; simpl; lia. }
  split; [exact H | exact (empty_range_warns _ _ _ H)].
Defined.

(** C10. The filter keeps a row of the table exactly when the date of its
    start_date is on or after the selected start and the date of its
    end_date is on or before the selected end; a row that starts before the
    selected start or ends after the selected end is dropped. *)
Theorem date_range_filter_exact (data : DataFrame) (start_sel end_sel : date)
    (r : row) :
  (In r (date_range_filter data start_sel end_sel)
   <-> In r data /\
       date_le start_sel (date_of (start_date r)) /\
       date_le (date_of (end_date r)) end_sel) /\
  (date_lt (date_of (start_date r)) start_sel \/
   date_lt end_sel (date_of (end_date r)) ->
   ~ In r (date_range_filter data start_sel end_sel)).
Proof.
  split; [apply date_range_filter_In|].
  intros Hout Hin. apply date_range_filter_In in Hin.
  destruct Hin as [_ [Hs He]].
  destruct Hout as [H|H]; apply date_lt_not_le in H; contradiction.
Qed.

Lemma date_range_filter_exact_witness :
  In (mkRow "ABC" "2024-W01" (mkDatetime 2024 1 1 0 0 0) (mkDatetime 2024 1 8 0 0 0)
            10 100)
     (date_range_filter abc_data (mkDate 2024 1 1) (mkDate 2024 12 31)) /\
  ~ In (mkRow "ABC" "2024-W01" (mkDatetime 2024 12 30 0 0 0)
              (mkDatetime 2025 1 6 0 0 0) 20 200)
       (date_range_filter abc_data (mkDate 2024 1 1) (mkDate 2024 12 31)).
Proof.
  split.
  - apply (proj1 (date_range_filter_exact abc_data _ _ _)).
    split; [left; reflexivity|]. unfold date_le; simpl. lia.
  - apply (proj2 (date_range_filter_exact abc_data _ _ _)).
    right. unfold date_lt; simpl. lia.
Defined.

(** ** [load_selected_data] and tokens without emission weeks *)

Section LoadFacts.
Variable strptime : string -> option datetime.
Variable emission_api : string -> string -> http_outcome.
Variable api_key : string.
Variable token_map : string -> option string.

Let loop := token_loop strptime emission_api api_key token_map.

Lemma alerts_app (l1 l2 : list ui_event) : alerts (l1 ++ l2) = alerts l1 ++ alerts l2.
Proof. apply filter_app. Qed.

(** Neither the tables collected nor the alerts shown depend on the
    progress counters. *)
Lemma token_loop_counters (tokens : list string) :
  forall total total' i i' all_data log log',
    alerts log = alerts log' ->
    fst (loop total i tokens all_data log)
    = fst (loop total' i' tokens all_data log') /\
    alerts (snd (loop total i tokens all_data log))
    = alerts (snd (loop total' i' tokens all_data log')).
Proof.
  unfold loop.
  induction tokens as [|t tokens IH]; intros total total' i i' all_data log log' Hlog;
    simpl.
  - now split.
  - destruct (token_map t) as [tid|]; [|now split].
    destruct (fetch_emission_data emission_api tid api_key) as [[[|w ws]|]|x].
    + apply IH. rewrite !alerts_app, Hlog. reflexivity.
    + destruct (process_token_data strptime (w :: ws) t) as [df|x];
        apply IH; rewrite !alerts_app, Hlog; reflexivity.
    + apply IH. rewrite !alerts_app, Hlog. reflexivity.
    + apply IH. rewrite !alerts_app, Hlog. reflexivity.
Qed.


Lemma load_selected_data_outcome (selected_tokens : list string) :
  let run := loop (Z.of_nat (List.length selected_tokens)) 0 selected_tokens []
                  [ProgressNew; StatusNew] in
  let res := load_selected_data strptime emission_api api_key selected_tokens
                                token_map in
  fst res = load_outcome (fst run) /\
  alerts (snd res) = alerts (snd run) ++ load_alerts (fst run).
Proof.
  unfold load_selected_data, loop. cbv zeta.
  destruct (token_loop _ _ _ _ _ _ _ _ _) as [[all_data|e] log]; simpl.
  - destruct all_data as [|df rest]; simpl.
    + split; [reflexivity|]. rewrite !alerts_app. simpl. now rewrite app_nil_r.
    + destruct (preprocess_data _); simpl; (split; [reflexivity|]);
        rewrite !alerts_app; simpl; now rewrite !app_nil_r.
  - split; [reflexivity|]. now rewrite app_nil_r.
Qed.

End LoadFacts.


(** * Further properties of the pipeline *)

(** ** [preprocess_data]: what the returned table holds *)

Lemma drop_duplicates_In {K : Type} (keqb : K -> K -> bool)
    (keqb_spec : forall a b, keqb a b = true <-> a = b) (k : K) (l : list K) :
  In k (drop_duplicates keqb l) <-> In k l.
Proof. exact (In_drop_duplicates keqb keqb keqb_spec k l). Qed.

Lemma In_dates_data (data : DataFrame) (d : string * datetime * datetime) :
  In d (dates_data data)
  <-> exists r, In r data /\ d = (week r, start_date r, end_date r).
Proof.
  unfold dates_data.
  rewrite (drop_duplicates_In dates_eqb dates_eqb_spec), in_map_iff.
  split; intros [r [H1 H2]]; exists r; auto.
Qed.

Lemma In_week_dates (data : DataFrame) (w : string) (d : string * datetime * datetime) :
  In d (week_dates data w)
  <-> exists r, In r data /\ week r = w /\ d = (w, start_date r, end_date r).
Proof.
  unfold week_dates. rewrite filter_In, In_dates_data, String.eqb_eq. split.
  - intros [[r [Hr ->]] Hw]. simpl in Hw. exists r. subst w. auto.
  - intros [r [Hr [Hw ->]]]. split; [|reflexivity]. exists r. subst w. auto.
Qed.


Lemma In_final_data (data : DataFrame) (r : row) :
  In r (final_data data)
  <-> exists g d, In g (grouped_data data) /\ In d (week_dates data (g_week g)) /\
                  r = final_row g d.
Proof.
  unfold final_data, merge_on_week, week_dates. rewrite in_flat_map. split.
  - intros [g [Hg Hr]]. apply in_map_iff in Hr. destruct Hr as [d [<- Hd]].
    exists g, d. auto.
  - intros [g [d [Hg [Hd ->]]]]. exists g. split; [exact Hg|].
    apply in_map_iff. exists d. auto.
Qed.

Lemma In_weekly_totals_key (data : DataFrame) (k : string * string) :
  In k (map agg_key (weekly_totals data)) <-> In k (map row_key data).
Proof.
  unfold weekly_totals. rewrite groupby_week_token_keys.
  apply In_group_keys, key2_eqb_spec.
Qed.

Lemma In_grouped_data_key (data : DataFrame) (k : string * string) :
  In k (map agg_key (grouped_data data))
  <-> In k (map pct_key (weekly_totals_relabelled data)).
Proof.
  unfold grouped_data. rewrite groupby_week_token_keys.
  apply In_group_keys, key2_eqb_spec.
Qed.

(** The rows of the relabelled table, read off the groups of the input. *)
Lemma In_relabelled (data : DataFrame) (x : pct_row) :
  In x (weekly_totals_relabelled data) ->
  exists g, In g (weekly_totals data) /\ p_week x = g_week g /\
            p_value_usd x = g_value_usd g /\ p_amount x = g_amount g /\
            (p_token x = "OTHER"%string \/ p_token x = g_token g).
Proof.
  unfold weekly_totals_relabelled. rewrite weekly_totals_pct_eq, map_map, in_map_iff.
  intros [g [<- Hg]]. exists g. cbn [p_week p_value_usd p_amount p_token].
  repeat split; auto. unfold relabel. cbn [p_percentage p_token].
  destruct (flt _ 5); auto.
Qed.

Lemma relabelled_of_group (data : DataFrame) (g : agg_row) :
  In g (weekly_totals data) ->
  exists x, In x (weekly_totals_relabelled data) /\ p_week x = g_week g.
Proof.
  intros Hg. unfold weekly_totals_relabelled. rewrite weekly_totals_pct_eq, map_map.
  eexists. split; [apply in_map_iff; exists g; split; [reflexivity | exact Hg]|].
  reflexivity.
Qed.

Lemma grouped_data_week (data : DataFrame) (w : string) :
  In w (map g_week (grouped_data data)) <-> In w (map week data).
Proof.
  split; intros H; apply in_map_iff in H; destruct H as [a [Ha Hin]].
  - assert (Hk : In (agg_key a) (map agg_key (grouped_data data))) by now apply in_map.
    apply In_grouped_data_key, in_map_iff in Hk. destruct Hk as [x [Hx Hxin]].
    apply In_relabelled in Hxin. destruct Hxin as [g [Hg [Hw _]]].
    assert (Hk : In (agg_key g) (map agg_key (weekly_totals data))) by now apply in_map.
    apply In_weekly_totals_key, in_map_iff in Hk. destruct Hk as [r [Hr Hrin]].
    apply in_map_iff. exists r. split; [|exact Hrin].
    unfold agg_key, pct_key, row_key in *. congruence.
  - assert (Hk : In (row_key a) (map row_key data)) by now apply in_map.
    apply In_weekly_totals_key, in_map_iff in Hk. destruct Hk as [g [Hg Hgin]].
    destruct (relabelled_of_group data g Hgin) as [x [Hx Hxw]].
    assert (Hk : In (pct_key x) (map pct_key (weekly_totals_relabelled data)))
      by now apply in_map.
    apply In_grouped_data_key, in_map_iff in Hk. destruct Hk as [g' [Hg' Hg'in]].
    apply in_map_iff. exists g'. split; [|exact Hg'in].
    unfold agg_key, pct_key, row_key in *. congruence.
Qed.












(** X4. Every row that [preprocess_data] returns is labelled 'OTHER' or
    carries the token of an input row of the same week: relabelling never
    moves a token into a week where it had no unlock. *)
Theorem preprocess_data_tokens (data out : DataFrame) (r' : row) :
  preprocess_data data = Ok out -> In r' out ->
  token r' = "OTHER"%string \/
  exists r, In r data /\ week r = week r' /\ token r = token r'.
Proof.
  intros Hout Hin.
  destruct data as [|r0 data0]; [discriminate|].
  set (data := r0 :: data0) in *.
  simpl in Hout. inversion Hout; subst out. clear Hout.
  apply In_final_data in Hin. destruct Hin as [g [d [Hg [_ ->]]]].
  assert (Hk : In (agg_key g) (map agg_key (grouped_data data))) by now apply in_map.
  apply In_grouped_data_key, in_map_iff in Hk. destruct Hk as [x [Hx Hxin]].
  apply In_relabelled in Hxin.
  destruct Hxin as [g0 [Hg0 [Hw [_ [_ Htok]]]]].
  unfold pct_key, agg_key in Hx. injection Hx as Hxw Hxt.
  simpl. destruct Htok as [Hother|Hsame].
  - left. congruence.
  - right.
    assert (Hk : In (agg_key g0) (map agg_key (weekly_totals data))) by now apply in_map.
    apply In_weekly_totals_key, in_map_iff in Hk. destruct Hk as [r [Hr Hrin]].
    unfold row_key, agg_key in Hr. injection Hr as Hrw Hrt.
    exists r. split; [exact Hrin|]. split; congruence.
Qed.

Lemma preprocess_data_tokens_witness :
  In (mkRow "A" "2023-W52" (mkDatetime 2023 12 25 0 0 0) (mkDatetime 2024 1 1 0 0 0)
            1 5)
     (final_data sample_data) /\
  ("A"%string = "OTHER"%string \/
   exists r, In r sample_data /\ week r = "2023-W52"%string /\ token r = "A"%string).
Proof.
  assert (Hin : In (mkRow "A" "2023-W52" (mkDatetime 2023 12 25 0 0 0)
                          (mkDatetime 2024 1 1 0 0 0) 1 5)
                   (final_data sample_data)) by (vm_compute; left; reflexivity).
  split; [exact Hin|].
  exact (preprocess_data_tokens sample_data (final_data sample_data) _ eq_refl Hin).
Defined.








(** ** [process_token_data]: dates that do not parse *)

Lemma week_loop_raise (strptime : string -> option datetime) (s : string)
    (e : list emission_week) (data : list row) (x : exn) :
  week_loop strptime s e data = Raise x -> x = ValueError.
Proof.
  revert data. induction e as [|w e IH]; intros data; simpl; [discriminate|].
  destruct (strptime (startDate w)); [|congruence].
  destruct (strptime (endDate w)); [|congruence].
  apply IH.
Qed.

(** X6. [process_token_data] returns a table exactly when the startDate and
    the endDate of every week parse; if one of them does not, in whatever
    week, the call raises ValueError and the rows of the other weeks are
    lost with it. *)
Theorem process_token_data_value_error (strptime : string -> option datetime)
    (emission_data : list emission_week) (token_symbol : string) :
  (Forall (dates_parse strptime) emission_data
   <-> exists rows, process_token_data strptime emission_data token_symbol = Ok rows) /\
  (Exists (fun w => strptime (startDate w) = None \/ strptime (endDate w) = None)
          emission_data ->
   process_token_data strptime emission_data token_symbol = Raise ValueError).
Proof.
  split.
  - split.
    + intros H. eexists. unfold process_token_data. now rewrite week_loop_spec.
    + intros [rows H]. now apply process_token_data_rows in H.
  - intros Hex.
    destruct (process_token_data strptime emission_data token_symbol) as [rows|x] eqn:E.
    + exfalso. apply process_token_data_rows in E. destruct E as [Hall _].
      apply Exists_exists in Hex. destruct Hex as [w [Hw Hbad]].
      rewrite Forall_forall in Hall. destruct (Hall w Hw) as [Hs He].
      destruct Hbad; contradiction.
    + f_equal. eapply week_loop_raise. exact E.
Qed.

Lemma process_token_data_value_error_witness :
  Exists (fun w => strptime_iso (startDate w) = None \/ strptime_iso (endDate w) = None)
         bad_date_emission /\
  process_token_data strptime_iso bad_date_emission "ABC" = Raise ValueError.
Proof.
  assert (H : Exists (fun w => strptime_iso (startDate w) = None \/
                               strptime_iso (endDate w) = None) bad_date_emission).
  { apply Exists_cons_tl, Exists_cons_hd. left. reflexivity. }
  split; [exact H|].
  exact (proj2 (process_token_data_value_error strptime_iso bad_date_emission "ABC") H).
Defined.

(** ** [load_selected_data]: the loop in closed form *)

Section LoadSpec.
Variable strptime : string -> option datetime.
Variable emission_api : string -> string -> http_outcome.
Variable api_key : string.
Variable token_map : string -> option string.

Lemma token_loop_closed (tokens : list string) :
  Forall (fun s => token_map s <> None) tokens ->
  forall total i all_data log,
    fst (token_loop strptime emission_api api_key token_map total i tokens all_data log)
    = Ok (all_data ++ collected_tables strptime emission_api api_key token_map tokens) /\
    alerts (snd (token_loop strptime emission_api api_key token_map total i tokens
                            all_data log))
    = alerts log ++ warnings_of strptime emission_api api_key token_map tokens.
Proof.
  unfold collected_tables, warnings_of.
  induction 1 as [|t tokens Ht _ IH]; intros total i all_data log.
  - simpl. now rewrite !app_nil_r.
  - cbn [token_loop flat_map filter]. unfold token_table at 1, token_fails at 1.
    destruct (token_map t) as [tid|]; [|congruence].
    destruct (fetch_emission_data emission_api tid api_key) as [[[|w ws]|]|x].
    + destruct (IH total (i + 1) all_data
                  ((log ++ [StatusText ("Processing " ++ t ++ "...")]) ++
                   [ProgressSet (inject_Z (i + 1) / inject_Z total); Sleep]))
        as [H1 H2].
      rewrite H1, H2, !alerts_app. simpl. now rewrite !app_nil_r.
    + destruct (process_token_data strptime (w :: ws) t) as [df|x].
      * destruct (IH total (i + 1) (all_data ++ [df])
                    ((log ++ [StatusText ("Processing " ++ t ++ "...")]) ++
                     [ProgressSet (inject_Z (i + 1) / inject_Z total); Sleep]))
          as [H1 H2].
        rewrite H1, H2, !alerts_app. simpl. rewrite !app_nil_r, <- app_assoc.
        now split.
      * destruct (IH total (i + 1) all_data
                    ((log ++ [StatusText ("Processing " ++ t ++ "...")]) ++
                     [Warning ("Error processing " ++ t)]))
          as [H1 H2].
        rewrite H1, H2, !alerts_app. simpl. rewrite !app_nil_r, <- app_assoc.
        now split.
    + destruct (IH total (i + 1) all_data
                  ((log ++ [StatusText ("Processing " ++ t ++ "...")]) ++
                   [ProgressSet (inject_Z (i + 1) / inject_Z total); Sleep]))
        as [H1 H2].
      rewrite H1, H2, !alerts_app. simpl. now rewrite !app_nil_r.
    + destruct (IH total (i + 1) all_data
                  ((log ++ [StatusText ("Processing " ++ t ++ "...")]) ++
                   [Warning ("Error processing " ++ t)]))
        as [H1 H2].
      rewrite H1, H2, !alerts_app. simpl. rewrite !app_nil_r, <- app_assoc.
      now split.
Qed.
End LoadSpec.

Lemma token_loop_missing (strptime : string -> option datetime)
    (emission_api : string -> string -> http_outcome) (api_key : string)
    (token_map : string -> option string) (tokens : list string) :
  Exists (fun s => token_map s = None) tokens ->
  forall total i all_data log,
    fst (token_loop strptime emission_api api_key token_map total i tokens all_data log)
    = Raise KeyError.
Proof.
  induction tokens as [|t tokens IH]; intros Hex total i all_data log.
  - inversion Hex.
  - cbn [token_loop].
    destruct (token_map t) as [tid|] eqn:Ht; [|reflexivity].
    assert (Hex' : Exists (fun s => token_map s = None) tokens).
    { inversion Hex as [? ? H|? ? H]; subst; [congruence | exact H]. }
    destruct (fetch_emission_data emission_api tid api_key) as [[[|w ws]|]|x];
      try apply (IH Hex').
    destruct (process_token_data strptime (w :: ws) t); apply (IH Hex').
Qed.

Lemma final_data_nonempty (data : DataFrame) : data <> [] -> final_data data <> [].
Proof.
  destruct data as [|r0 data0]; [congruence|]. intros _ Hnil.
  set (data := r0 :: data0) in *.
  assert (Hg : In (week r0) (map g_week (grouped_data data))).
  { apply grouped_data_week. left. reflexivity. }
  apply in_map_iff in Hg. destruct Hg as [g [Hgw Hg]].
  assert (Hin : In (final_row g (week r0, start_date r0, end_date r0))
                   (final_data data)).
  { apply In_final_data. exists g, (week r0, start_date r0, end_date r0).
    split; [exact Hg|]. split; [|reflexivity].
    apply In_week_dates. exists r0. rewrite Hgw. split; [now left | auto]. }
  rewrite Hnil in Hin. contradiction.
Qed.

Section LoadResults.
Variable strptime : string -> option datetime.
Variable emission_api : string -> string -> http_outcome.
Variable api_key : string.
Variable token_map : string -> option string.

Let load := fun selected =>
  load_selected_data strptime emission_api api_key selected token_map.
Let tables := collected_tables strptime emission_api api_key token_map.
Let warnings := warnings_of strptime emission_api api_key token_map.

Lemma load_closed_form (selected_tokens : list string) :
  Forall (fun s => token_map s <> None) selected_tokens ->
  fst (load selected_tokens) = load_outcome (Ok (tables selected_tokens)) /\
  alerts (snd (load selected_tokens))
  = warnings selected_tokens ++ load_alerts (Ok (tables selected_tokens)).
Proof.
  intros Hall. unfold load, tables, warnings.
  destruct (load_selected_data_outcome strptime emission_api api_key token_map
              selected_tokens) as [R A].
  destruct (token_loop_closed strptime emission_api api_key token_map
              selected_tokens Hall (Z.of_nat (List.length selected_tokens)) 0 []
              [ProgressNew; StatusNew]) as [H1 H2].
  rewrite R, A, H1, H2.
  change (alerts [ProgressNew; StatusNew]) with (@nil ui_event).
  split; reflexivity.
Qed.

(** X7. When every selected symbol is in the token map, [load_selected_data]
    collects, in the order of the selection, the table of each token whose
    request returned weeks and whose dates parse.  With no such table it
    returns None; with tables that hold no row at all it raises KeyError;
    otherwise it returns [preprocess_data] of their rows in that order.  It
    shows one warning for each token that raised inside the try, in order,
    and then the error message exactly when no table was collected. *)
Theorem load_selected_data_result (selected_tokens : list string) :
  Forall (fun s => token_map s <> None) selected_tokens ->
  fst (load selected_tokens)
  = match tables selected_tokens with
    | [] => Ok None
    | _ :: _ =>
        match pd_concat (tables selected_tokens) with
        | [] => Raise KeyError
        | r :: rows => Ok (Some (final_data (r :: rows)))
        end
    end /\
  alerts (snd (load selected_tokens))
  = warnings selected_tokens ++
    match tables selected_tokens with
    | [] => [Error no_data_message]
    | _ :: _ => []
    end.
Proof.
  intros Hall. destruct (load_closed_form selected_tokens Hall) as [R A].
  rewrite R, A. unfold load_outcome, load_alerts.
  destruct (tables selected_tokens) as [|df rest].
  - split; reflexivity.
  - split; [|reflexivity].
    generalize (pd_concat (df :: rest)). intros [|r rows]; reflexivity.
Qed.

(** X8. A selected symbol that the token map does not hold makes
    [load_selected_data] raise KeyError, whatever the other tokens return:
    the lookup is outside the try. *)
Theorem load_selected_data_missing_symbol (selected_tokens : list string)
    (s : string) :
  In s selected_tokens -> token_map s = None ->
  fst (load selected_tokens) = Raise KeyError.
Proof.
  intros Hin Hs. unfold load.
  destruct (load_selected_data_outcome strptime emission_api api_key token_map
              selected_tokens) as [R _].
  rewrite R, token_loop_missing; [reflexivity|].
  apply Exists_exists. exists s. auto.
Qed.

(** X9. A table that [load_selected_data] returns always has rows: for want
    of rows it returns None or raises, never an empty table. *)
Theorem load_selected_data_table_has_rows (selected_tokens : list string)
    (final : DataFrame) :
  fst (load selected_tokens) = Ok (Some final) -> final <> [].
Proof.
  unfold load.
  destruct (load_selected_data_outcome strptime emission_api api_key token_map
              selected_tokens) as [R _].
  rewrite R. unfold load_outcome.
  destruct (fst (token_loop _ _ _ _ _ _ _ _ _)) as [[|df rest]|e]; try discriminate.
  destruct (pd_concat (df :: rest)) as [|r rows] eqn:E; simpl; [discriminate|].
  intros H. inversion H. apply final_data_nonempty. discriminate.
Qed.
End LoadResults.

Lemma load_selected_data_result_witness :
  Forall (fun s => abc_map s <> None) ["NEW"; "ABC"]%string /\
  fst (load_selected_data strptime_iso abc_api "k" ["NEW"; "ABC"]%string abc_map)
  = Ok (Some (final_data abc_data)).
Proof.
  assert (H : Forall (fun s => abc_map s <> None) ["NEW"; "ABC"]%string)
    by (repeat constructor; discriminate).
  split; [exact H|].
  exact (proj1 (load_selected_data_result strptime_iso abc_api "k" abc_map
                  ["NEW"; "ABC"]%string H)).
Defined.

Lemma load_selected_data_missing_symbol_witness :
  In "XYZ"%string ["ABC"; "XYZ"]%string /\ abc_map "XYZ" = None /\
  fst (load_selected_data strptime_iso abc_api "k" ["ABC"; "XYZ"]%string abc_map)
  = Raise KeyError.
Proof.
  assert (H : In "XYZ"%string ["ABC"; "XYZ"]%string) by (right; left; reflexivity).
  split; [exact H|]. split; [reflexivity|].
  exact (load_selected_data_missing_symbol strptime_iso abc_api "k" abc_map
           ["ABC"; "XYZ"]%string "XYZ" H eq_refl).
Defined.

Lemma load_selected_data_table_has_rows_witness :
  fst (load_selected_data strptime_iso abc_api "k" ["ABC"]%string abc_map)
  = Ok (Some (final_data abc_data)) /\
  final_data abc_data <> [].
Proof.
  assert (H : fst (load_selected_data strptime_iso abc_api "k" ["ABC"]%string abc_map)
              = Ok (Some (final_data abc_data))) by reflexivity.
  split; [exact H|].
  exact (load_selected_data_table_has_rows strptime_iso abc_api "k" abc_map
           ["ABC"]%string _ H).
Defined.

Lemma concat_nils {A B : Type} (l : list B) :
  List.concat (map (fun _ => @nil A) l) = [].
Proof. induction l as [|b l IH]; [reflexivity | exact IH]. Qed.

Section LoadEdges.
Variable strptime : string -> option datetime.
Variable emission_api : string -> string -> http_outcome.
Variable api_key : string.
Variable token_map : string -> option string.

Lemma flat_map_week_rows_empty (s : string) (e : list emission_week) :
  Forall (fun wk => allocations wk = []) e ->
  flat_map (week_rows strptime s) e = [].
Proof.
  induction 1 as [|w e Hw _ IH]; simpl; [reflexivity|].
  rewrite IH, app_nil_r. unfold week_rows. rewrite Hw.
  destruct (strptime (startDate w)); [|reflexivity].
  destruct (strptime (endDate w)); reflexivity.
Qed.

Lemma only_empty_weeks_table (s : string) :
  only_empty_weeks strptime emission_api api_key token_map s ->
  token_table strptime emission_api api_key token_map s = Some [].
Proof.
  intros [tid [w [ws [Hmap [Hfetch [Hparse Hempty]]]]]].
  unfold token_table. rewrite Hmap, Hfetch.
  unfold process_token_data. rewrite week_loop_spec by exact Hparse.
  now rewrite flat_map_week_rows_empty.
Qed.

(** X10. When every selected token returns weeks whose dates parse but
    which hold no allocation, [load_selected_data] does not come back with
    None: the tables it collected have no columns and the call raises
    KeyError. *)
Theorem load_selected_data_no_allocations (selected_tokens : list string) :
  selected_tokens <> [] ->
  Forall (only_empty_weeks strptime emission_api api_key token_map) selected_tokens ->
  fst (load_selected_data strptime emission_api api_key selected_tokens token_map)
  = Raise KeyError.
Proof.
  intros Hne Hall.
  assert (Hmap : Forall (fun s => token_map s <> None) selected_tokens).
  { eapply Forall_impl; [|exact Hall].
    intros s [tid [w [ws [Hs _]]]]. congruence. }
  destruct (load_closed_form strptime emission_api api_key token_map
              selected_tokens Hmap) as [R _].
  rewrite R. clear R Hmap.
  assert (Htab : collected_tables strptime emission_api api_key token_map
                   selected_tokens
                 = map (fun _ => []) selected_tokens).
  { unfold collected_tables. clear Hne.
    induction Hall as [|s l Hs _ IH]; simpl; [reflexivity|].
    rewrite (only_empty_weeks_table s Hs). simpl. f_equal.
    apply IH. }
  rewrite Htab. destruct selected_tokens as [|s l]; [congruence|].
  unfold load_outcome, pd_concat. cbn [map List.concat app].
  now rewrite concat_nils.
Qed.
End LoadEdges.

Lemma load_selected_data_no_allocations_witness :
  ["ABC"%string] <> [] /\
  Forall (only_empty_weeks strptime_iso hollow_api "k" abc_map) ["ABC"%string] /\
  fst (load_selected_data strptime_iso hollow_api "k" ["ABC"%string] abc_map)
  = Raise KeyError.
Proof.
  assert (H1 : ["ABC"%string] <> []) by discriminate.
  assert (H2 : Forall (only_empty_weeks strptime_iso hollow_api "k" abc_map)
                      ["ABC"%string]).
  { constructor; [|constructor].
    exists "id-abc"%string,
           (mkEmissionWeek "2024-01-01T00:00:00Z" "2024-01-08T00:00:00Z" []), [].
    split; [reflexivity|]. split; [reflexivity|]. split.
    - constructor; [|constructor]. split; vm_compute; discriminate.
    - constructor; [reflexivity | constructor]. }
  split; [exact H1|]. split; [exact H2|].
  exact (load_selected_data_no_allocations strptime_iso hollow_api "k" abc_map
           ["ABC"%string] H1 H2).
Defined.

(** ** [load_selected_data]: the progress bar and requests that fail *)

Lemma progress_fraction_bounds (a b : Z) :
  0 < a -> a <= b -> (0 < inject_Z a / inject_Z b /\ inject_Z a / inject_Z b <= 1)%Q.
Proof.
  intros Ha Hab.
  assert (Hb : (0 < inject_Z b)%Q).
  { change 0%Q with (inject_Z 0). rewrite <- Zlt_Qlt. lia. }
  split.
  - apply Qlt_shift_div_l; [exact Hb|]. ring_simplify.
    change 0%Q with (inject_Z 0). rewrite <- Zlt_Qlt. exact Ha.
  - apply Qle_shift_div_r; [exact Hb|]. ring_simplify.
    rewrite <- Zle_Qle. exact Hab.
Qed.

Section LoadProgress.
Variable strptime : string -> option datetime.
Variable emission_api : string -> string -> http_outcome.
Variable api_key : string.
Variable token_map : string -> option string.

Lemma token_loop_progress (tokens : list string) :
  forall total i all_data log q,
    0 <= i -> i + Z.of_nat (List.length tokens) <= total ->
    In (ProgressSet q)
       (snd (token_loop strptime emission_api api_key token_map total i tokens
                        all_data log)) ->
    In (ProgressSet q) log \/ (0 < q /\ q <= 1)%Q.
Proof.
  induction tokens as [|t tokens IH]; intros total i all_data log q Hi Htot Hin.
  - left. exact Hin.
  - cbn [token_loop] in Hin. cbn [List.length] in Htot.
    rewrite Nat2Z.inj_succ in Htot.
    destruct (token_map t) as [tid|]; [|left; exact Hin].
    assert (Hstep : forall all_data' tail,
      (forall q', In (ProgressSet q') tail -> (0 < q' /\ q' <= 1)%Q) ->
      In (ProgressSet q)
         (snd (token_loop strptime emission_api api_key token_map total (i + 1)
                 tokens all_data'
                 ((log ++ [StatusText ("Processing " ++ t ++ "...")]) ++ tail))) ->
      In (ProgressSet q) log \/ (0 < q /\ q <= 1)%Q).
    { intros all_data' tail Htail H.
      apply IH in H; [|lia|lia].
      destruct H as [H|H]; [|right; exact H].
      apply in_app_or in H. destruct H as [H|H].
      - apply in_app_or in H. destruct H as [H|[H|[]]]; [left; exact H | discriminate].
      - right. now apply Htail. }
    assert (Hadv : forall q',
      In (ProgressSet q')
         [ProgressSet (inject_Z (i + 1) / inject_Z total); Sleep] ->
      (0 < q' /\ q' <= 1)%Q).
    { intros q' [H|[H|[]]]; [|discriminate]. injection H as <-.
      apply progress_fraction_bounds; lia. }
    assert (Hwarn : forall q',
      In (ProgressSet q') [Warning ("Error processing " ++ t)] ->
      (0 < q' /\ q' <= 1)%Q).
    { intros q' [H|[]]. discriminate. }
    destruct (fetch_emission_data emission_api tid api_key) as [[[|w ws]|]|x].
    + eapply Hstep; [exact Hadv | exact Hin].
    + destruct (process_token_data strptime (w :: ws) t).
      * eapply Hstep; [exact Hadv | exact Hin].
      * eapply Hstep; [exact Hwarn | exact Hin].
    + eapply Hstep; [exact Hadv | exact Hin].
    + eapply Hstep; [exact Hwarn | exact Hin].
Qed.

(** X11. Every value [load_selected_data] sets the progress bar to lies
    above 0 and is at most 1, whatever the tokens return: the division by
    the number of selected tokens is never a division by zero and
    [st.progress] never gets a value out of its range. *)
Theorem load_selected_data_progress (selected_tokens : list string) (q : Q) :
  In (ProgressSet q)
     (snd (load_selected_data strptime emission_api api_key selected_tokens token_map)) ->
  (0 < q /\ q <= 1)%Q.
Proof.
  unfold load_selected_data.
  destruct (token_loop strptime emission_api api_key token_map
              (Z.of_nat (List.length selected_tokens)) 0 selected_tokens []
              [ProgressNew; StatusNew]) as [res log] eqn:E.
  assert (Hlog : In (ProgressSet q) log -> (0 < q /\ q <= 1)%Q).
  { intros H.
    assert (H' : In (ProgressSet q)
                    (snd (token_loop strptime emission_api api_key token_map
                            (Z.of_nat (List.length selected_tokens)) 0
                            selected_tokens [] [ProgressNew; StatusNew])))
      by now rewrite E.
    apply token_loop_progress in H'; [|lia|lia].
    destruct H' as [[H'|[H'|[]]]|H']; try discriminate. exact H'. }
  destruct res as [all_data|e]; [|exact Hlog].
  destruct all_data as [|df rest].
  - cbn [snd]. intros H. apply in_app_or in H. destruct H as [H|[H|[]]];
      [|discriminate].
    apply in_app_or in H. destruct H as [H|[H|[H|[]]]]; try discriminate.
    now apply Hlog.
  - destruct (preprocess_data (pd_concat (df :: rest))); cbn [snd]; intros H;
      apply in_app_or in H; destruct H as [H|[H|[H|[]]]]; try discriminate;
      now apply Hlog.
Qed.

Lemma token_loop_skips_quiet (before after : list string) (t tid : string) :
  token_map t = Some tid ->
  fetch_emission_data emission_api tid api_key = Ok None ->
  forall total total' i i' all_data log log',
    alerts log = alerts log' ->
    fst (token_loop strptime emission_api api_key token_map total i
           (before ++ t :: after) all_data log)
    = fst (token_loop strptime emission_api api_key token_map total' i'
             (before ++ after) all_data log') /\
    alerts (snd (token_loop strptime emission_api api_key token_map total i
                   (before ++ t :: after) all_data log))
    = alerts (snd (token_loop strptime emission_api api_key token_map total' i'
                     (before ++ after) all_data log')).
Proof.
  intros Ht Hfetch.
  induction before as [|b before IH];
    intros total total' i i' all_data log log' Hlog.
  - simpl app. cbn [token_loop]. rewrite Ht, Hfetch.
    apply token_loop_counters.
    rewrite !alerts_app, Hlog. simpl. now rewrite !app_nil_r.
  - simpl.
    destruct (token_map b) as [bid|]; [|now split].
    destruct (fetch_emission_data emission_api bid api_key) as [[[|w ws]|]|x].
    + apply IH. rewrite !alerts_app, Hlog. reflexivity.
    + destruct (process_token_data strptime (w :: ws) b) as [df|x];
        apply IH; rewrite !alerts_app, Hlog; reflexivity.
    + apply IH. rewrite !alerts_app, Hlog. reflexivity.
    + apply IH. rewrite !alerts_app, Hlog. reflexivity.
Qed.

(** X12. A selected token whose emission request is answered with a status
    other than 200 is passed over in silence: [load_selected_data] returns
    the same result and shows the same warnings and errors as for the
    selection without that token. *)
Theorem load_selected_data_skips_failed_request (before after : list string)
    (t tid : string) (status_code : Z) (data : option (list emission_week)) :
  token_map t = Some tid ->
  emission_api tid api_key = HttpResponse status_code data ->
  status_code <> 200 ->
  fst (load_selected_data strptime emission_api api_key (before ++ t :: after)
                          token_map)
  = fst (load_selected_data strptime emission_api api_key (before ++ after)
                            token_map) /\
  alerts (snd (load_selected_data strptime emission_api api_key
                                  (before ++ t :: after) token_map))
  = alerts (snd (load_selected_data strptime emission_api api_key
                                    (before ++ after) token_map)).
Proof.
  intros Ht Hapi Hcode.
  assert (Hfetch : fetch_emission_data emission_api tid api_key = Ok None).
  { unfold fetch_emission_data. rewrite Hapi.
    destruct (status_code =? 200) eqn:E; [|reflexivity].
    apply Z.eqb_eq in E. contradiction. }
  destruct (load_selected_data_outcome strptime emission_api api_key token_map
              (before ++ t :: after)) as [R1 A1].
  destruct (load_selected_data_outcome strptime emission_api api_key token_map
              (before ++ after)) as [R2 A2].
  destruct (token_loop_skips_quiet before after t tid Ht Hfetch
              (Z.of_nat (List.length (before ++ t :: after)))
              (Z.of_nat (List.length (before ++ after)))
              0 0 [] [ProgressNew; StatusNew] [ProgressNew; StatusNew] eq_refl)
    as [Hres Hal].
  split.
  - rewrite R1, R2. now rewrite Hres.
  - rewrite A1, A2. now rewrite Hres, Hal.
Qed.
End LoadProgress.

Lemma load_selected_data_progress_witness :
  In (ProgressSet (1 # 2))
     (snd (load_selected_data strptime_iso abc_api "k" ["NEW"; "ABC"]%string abc_map)) /\
  (0 < 1 # 2 /\ 1 # 2 <= 1)%Q.
Proof.
  assert (H : In (ProgressSet (1 # 2))
                 (snd (load_selected_data strptime_iso abc_api "k"
                         ["NEW"; "ABC"]%string abc_map))).
  { vm_compute. do 3 right. left. reflexivity. }
  split; [exact H|].
  exact (load_selected_data_progress strptime_iso abc_api "k" abc_map _ _ H).
Defined.

Lemma load_selected_data_skips_failed_request_witness :
  abc_map "ABC" = Some "id-abc"%string /\
  fst (load_selected_data strptime_iso (fun _ _ => HttpResponse 500 None) "k"
                          ["ABC"]%string abc_map)
  = fst (load_selected_data strptime_iso (fun _ _ => HttpResponse 500 None) "k"
                            [] abc_map).
Proof.
  split; [reflexivity|].
  exact (proj1 (load_selected_data_skips_failed_request strptime_iso
                  (fun _ _ => HttpResponse 500 None) "k" abc_map
                  [] [] "ABC" "id-abc" 500 None eq_refl eq_refl
                  ltac:(discriminate))).
Defined.

(** ** [main]: the token map *)

Lemma dict_get_set (s k v : string) (d : dict) :
  dict_get s (dict_set k v d) = if String.eqb s k then Some v else dict_get s d.
Proof.
  induction d as [|[k' v'] d IH]; simpl.
  - rewrite String.eqb_sym. reflexivity.
  - destruct (String.eqb k' k) eqn:Ek; simpl.
    + apply String.eqb_eq in Ek. subst k'.
      rewrite (String.eqb_sym k s). destruct (String.eqb s k); reflexivity.
    + destruct (String.eqb k' s) eqn:Es.
      * apply String.eqb_eq in Es. subst k'.
        now rewrite Ek.
      * exact IH.
Qed.

Lemma dict_set_keys (k v : string) (d : dict) :
  map fst (dict_set k v d)
  = if existsb (String.eqb k) (map fst d) then map fst d else map fst d ++ [k].
Proof.
  induction d as [|[k' v'] d IH]; simpl; [reflexivity|].
  rewrite (String.eqb_sym k k').
  destruct (String.eqb k' k); simpl; [reflexivity|].
  rewrite IH. destruct (existsb _ _); reflexivity.
Qed.

Lemma filter_filter {A : Type} (p q : A -> bool) (l : list A) :
  filter p (filter q l) = filter (fun x => q x && p x) l.
Proof.
  induction l as [|x l IH]; simpl; [reflexivity|].
  destruct (q x); simpl; [destruct (p x)|]; now rewrite IH.
Qed.

Lemma token_fold_keys (tokens : list api_token) (d : dict) :
  map fst (fold_left token_step tokens d)
  = map fst d ++
    filter (fun s => negb (existsb (String.eqb s) (map fst d)))
           (drop_duplicates String.eqb (map tok_symbol tokens)).
Proof.
  revert d. induction tokens as [|t tokens IH]; intros d.
  - simpl. now rewrite app_nil_r.
  - cbn [fold_left map drop_duplicates filter]. rewrite IH.
    pose proof (dict_set_keys (tok_symbol t) (tok_id t) d) as Hk.
    fold (token_step d t) in Hk. rewrite Hk. clear Hk.
    rewrite filter_filter.
    destruct (existsb (String.eqb (tok_symbol t)) (map fst d)) eqn:E; cbn [negb].
    + f_equal. apply filter_ext. intros s.
      destruct (String.eqb s (tok_symbol t)) eqn:Es; simpl; [|reflexivity].
      apply String.eqb_eq in Es. subst s. now rewrite E.
    + rewrite <- app_assoc. cbn [app]. f_equal. f_equal.
      apply filter_ext. intros s.
      rewrite existsb_app. cbn [existsb]. rewrite orb_false_r, negb_orb.
      apply andb_comm.
Qed.

Lemma token_fold_get_other (s : string) (tokens : list api_token) (d : dict) :
  (forall t, In t tokens -> tok_symbol t <> s) ->
  dict_get s (fold_left token_step tokens d) = dict_get s d.
Proof.
  revert d. induction tokens as [|t tokens IH]; intros d Hno; simpl; [reflexivity|].
  rewrite IH by (intros t' Ht'; apply Hno; now right).
  unfold token_step. rewrite dict_get_set.
  destruct (String.eqb s (tok_symbol t)) eqn:E; [|reflexivity].
  apply String.eqb_eq in E. exfalso. apply (Hno t); [now left | now symmetry].
Qed.

Lemma token_fold_get_in (s i : string) (tokens : list api_token) (d : dict) :
  dict_get s (fold_left token_step tokens d) = Some i ->
  dict_get s d = Some i \/ In (mkToken s i) tokens.
Proof.
  revert d. induction tokens as [|t tokens IH]; intros d H; simpl in *; [now left|].
  apply IH in H. destruct H as [H|H]; [|right; now right].
  unfold token_step in H. rewrite dict_get_set in H.
  destruct (String.eqb s (tok_symbol t)) eqn:E; [|now left].
  apply String.eqb_eq in E. injection H as <-. right. left.
  destruct t; simpl in *. now subst.
Qed.

(** X13. The token map [main] builds: the offered symbols are the distinct
    symbols of the token list in the order of their first entry; every
    offered symbol has an id in the map, so a selection among them never
    meets a missing key; the id of a symbol is the id of its last entry in
    the list; an id the map gives always belongs to an entry of the list. *)
Theorem token_map_of_tokens (tokens : list api_token) :
  token_list tokens = drop_duplicates String.eqb (map tok_symbol tokens) /\
  (forall s, In s (token_list tokens) ->
             dict_get s (token_map_of tokens) <> None) /\
  (forall before t after,
     tokens = before ++ t :: after ->
     (forall t', In t' after -> tok_symbol t' <> tok_symbol t) ->
     dict_get (tok_symbol t) (token_map_of tokens) = Some (tok_id t)) /\
  (forall s i, dict_get s (token_map_of tokens) = Some i -> In (mkToken s i) tokens).
Proof.
  assert (Hkeys : token_list tokens
                  = drop_duplicates String.eqb (map tok_symbol tokens)).
  { unfold token_list, token_map_of. fold token_step.
    rewrite token_fold_keys. simpl. now apply filter_all. }
  assert (Hlast : forall before t after,
     tokens = before ++ t :: after ->
     (forall t', In t' after -> tok_symbol t' <> tok_symbol t) ->
     dict_get (tok_symbol t) (token_map_of tokens) = Some (tok_id t)).
  { intros before t after -> Hafter.
    unfold token_map_of. fold token_step.
    rewrite fold_left_app. simpl.
    rewrite token_fold_get_other by exact Hafter.
    unfold token_step. rewrite dict_get_set. now rewrite String.eqb_refl. }
  split; [exact Hkeys|]. split; [|split; [exact Hlast|]].
  - intros s Hs. unfold token_list in Hs.
    apply in_map_iff in Hs. destruct Hs as [[k v] [<- Hin]]. simpl.
    clear -Hin. induction (token_map_of tokens) as [|[k' v'] d IH]; simpl in *;
      [contradiction|].
    destruct Hin as [Heq|Hin].
    + injection Heq as -> ->. now rewrite String.eqb_refl.
    + destruct (String.eqb k' k); [discriminate | now apply IH].
  - intros s i H. unfold token_map_of in H. fold token_step in H.
    apply token_fold_get_in in H. destruct H as [H|H]; [discriminate | exact H].
Qed.

Lemma token_map_of_tokens_witness :
  In "ARB"%string (token_list sample_tokens) /\
  dict_get "ARB" (token_map_of sample_tokens) <> None /\
  dict_get "ARB" (token_map_of sample_tokens) = Some "id-3"%string.
Proof.
  assert (H : In "ARB"%string (token_list sample_tokens)) by (left; reflexivity).
  destruct (token_map_of_tokens sample_tokens) as [_ [H1 [H2 _]]].
  split; [exact H|]. split; [exact (H1 _ H)|].
  apply (H2 [mkToken "ARB" "id-1"; mkToken "OP" "id-2"] (mkToken "ARB" "id-3") []);
    [reflexivity|].
  intros t' [].
Defined.

(** ** [main]: the default date range *)

Lemma date_le_refl (a : date) : date_le a a.
Proof. unfold date_le. lia. Qed.

Lemma date_le_trans (a b c : date) : date_le a b -> date_le b c -> date_le a c.
Proof. unfold date_le. lia. Qed.

Lemma datetime_leb_date (a b : datetime) :
  datetime_leb a b = true -> date_le (date_of a) (date_of b).
Proof.
  unfold datetime_leb, date_le, date_of. simpl.
  rewrite !orb_true_iff, !andb_true_iff, !orb_true_iff, !andb_true_iff,
          !orb_true_iff, !andb_true_iff, !Z.ltb_lt, !Z.eqb_eq.
  lia.
Qed.

Lemma datetime_leb_total_date (a b : datetime) :
  datetime_leb a b = false -> date_le (date_of b) (date_of a).
Proof.
  unfold datetime_leb, date_le, date_of. simpl.
  rewrite !orb_false_iff, !andb_false_iff, !orb_false_iff, !andb_false_iff,
          !orb_false_iff, !andb_false_iff, !Z.ltb_ge, !Z.eqb_neq.
  lia.
Qed.

Lemma series_min_le (l : list datetime) (m : datetime) :
  series_min l = Some m -> forall x, In x l -> date_le (date_of m) (date_of x).
Proof.
  destruct l as [|x0 rest]; [discriminate|]. simpl. intros H. injection H as <-.
  assert (Hgen : forall l m0 x,
    (In x l \/ date_le (date_of m0) (date_of x)) ->
    date_le (date_of (fold_left (fun m y => if datetime_leb y m then y else m) l m0))
            (date_of x)).
  { clear. induction l as [|y l IH]; intros m0 x H; simpl.
    - destruct H as [[]|H]. exact H.
    - apply IH. destruct H as [[->|H]|H]; [|now left|].
      + right. destruct (datetime_leb x m0) eqn:E; [apply date_le_refl|].
        now apply datetime_leb_total_date.
      + right. destruct (datetime_leb y m0) eqn:E; [|exact H].
        eapply date_le_trans; [apply datetime_leb_date; exact E | exact H]. }
  intros x [->|Hx]; apply Hgen; [right; apply date_le_refl | now left].
Qed.

Lemma series_max_ge (l : list datetime) (m : datetime) :
  series_max l = Some m -> forall x, In x l -> date_le (date_of x) (date_of m).
Proof.
  destruct l as [|x0 rest]; [discriminate|]. simpl. intros H. injection H as <-.
  assert (Hgen : forall l m0 x,
    (In x l \/ date_le (date_of x) (date_of m0)) ->
    date_le (date_of x)
            (date_of (fold_left (fun m y => if datetime_leb m y then y else m) l m0))).
  { clear. induction l as [|y l IH]; intros m0 x H; simpl.
    - destruct H as [[]|H]. exact H.
    - apply IH. destruct H as [[->|H]|H]; [|now left|].
      + right. destruct (datetime_leb m0 x) eqn:E; [apply date_le_refl|].
        now apply datetime_leb_total_date.
      + right. destruct (datetime_leb m0 y) eqn:E; [|exact H].
        eapply date_le_trans; [exact H | apply datetime_leb_date; exact E]. }
  intros x [->|Hx]; apply Hgen; [right; apply date_le_refl | now left].
Qed.

(** X14. The range the two date inputs start with, from the earliest
    start_date to the latest end_date of the table, keeps every row: before
    the user narrows the range, [main] charts the whole table and shows no
    warning.  A table with rows always has such a range. *)
Theorem default_range_keeps_all (data : DataFrame) :
  data <> [] ->
  exists start_sel end_sel,
    default_range data = Some (start_sel, end_sel) /\
    date_range_filter data start_sel end_sel = data /\
    In (Chart data) (main_view data start_sel end_sel) /\
    forall m, ~ In (Warning m) (main_view data start_sel end_sel).
Proof.
  intros Hne. unfold default_range.
  destruct (series_min (map start_date data)) as [s|] eqn:Es;
    [|destruct data; [congruence | discriminate]].
  destruct (series_max (map end_date data)) as [e|] eqn:Ee;
    [|destruct data; [congruence | discriminate]].
  exists (date_of s), (date_of e). split; [reflexivity|].
  assert (Hall : date_range_filter data (date_of s) (date_of e) = data).
  { unfold date_range_filter.
    rewrite <- (filter_all (fun _ => true) data) at 2 by reflexivity.
    apply filter_ext_in. intros r Hr.
    apply andb_true_iff. split; apply date_leb_spec.
    - apply (series_min_le _ _ Es). now apply in_map.
    - apply (series_max_ge _ _ Ee). now apply in_map. }
  split; [exact Hall|].
  unfold main_view. rewrite Hall.
  destruct data as [|r data]; [congruence|]. split.
  - do 5 right. left. reflexivity.
  - intros m H. repeat (destruct H as [H|H]; [discriminate|]). exact H.
Qed.

Lemma default_range_keeps_all_witness :
  abc_data <> [] /\
  exists start_sel end_sel,
    default_range abc_data = Some (start_sel, end_sel) /\
    date_range_filter abc_data start_sel end_sel = abc_data.
Proof.
  assert (H : abc_data <> []) by discriminate.
  split; [exact H|].
  destruct (default_range_keeps_all abc_data H) as [s [e [H1 [H2 _]]]].
  exists s, e. split; [exact H1 | exact H2].
Defined.

(** ** [main]: narrowing the range, and the metrics *)

(** X15. Widening the selected range never removes a row from the filtered
    table: the rows kept for a range are kept for every range that starts
    no later and ends no earlier. *)
Theorem date_range_filter_monotone (data : DataFrame)
    (start_sel end_sel start_sel' end_sel' : date) (r : row) :
  date_le start_sel' start_sel -> date_le end_sel end_sel' ->
  In r (date_range_filter data start_sel end_sel) ->
  In r (date_range_filter data start_sel' end_sel').
Proof.
  intros Hs He Hin.
  apply date_range_filter_In in Hin. destruct Hin as [Hr [H1 H2]].
  apply date_range_filter_In. split; [exact Hr|]. split.
  - eapply date_le_trans; eassumption.
  - eapply date_le_trans; eassumption.
Qed.

Lemma date_range_filter_monotone_witness :
  In (mkRow "ABC" "2024-W01" (mkDatetime 2024 1 1 0 0 0) (mkDatetime 2024 1 8 0 0 0)
            10 100)
     (date_range_filter abc_data (mkDate 2023 12 1) (mkDate 2024 12 31)).
Proof.
  apply (date_range_filter_monotone abc_data (mkDate 2024 1 1) (mkDate 2024 1 31)
           (mkDate 2023 12 1) (mkDate 2024 12 31)).
  - unfold date_le; simpl; lia.
  - unfold date_le; simpl; lia.
  - vm_compute. left. reflexivity.
Defined.






(** ** [preprocess_data]: the order of the returned rows *)

Lemma ascii_compare_lt_trans (a b c : ascii) :
  Ascii.compare a b = Lt -> Ascii.compare b c = Lt -> Ascii.compare a c = Lt.
Proof.
  unfold Ascii.compare. rewrite !N.compare_lt_iff. apply N.lt_trans.
Qed.

Lemma string_compare_refl (a : string) : String.compare a a = Eq.
Proof.
  pose proof (String.compare_antisym a a) as H.
  destruct (String.compare a a); simpl in H; congruence.
Qed.

Lemma string_compare_lt_trans (a b c : string) :
  String.compare a b = Lt -> String.compare b c = Lt -> String.compare a c = Lt.
Proof.
  revert b c. induction a as [|x a IH]; intros [|y b] [|z c]; simpl;
    try discriminate; try reflexivity.
  destruct (Ascii.compare x y) eqn:Exy; try discriminate;
    destruct (Ascii.compare y z) eqn:Eyz; try discriminate; intros H1 H2.
  - apply Ascii.compare_eq_iff in Exy, Eyz. subst.
    assert (Hr : Ascii.compare z z = Eq).
    { pose proof (Ascii.compare_antisym z z) as H.
      destruct (Ascii.compare z z); simpl in H; congruence. }
    rewrite Hr. now apply (IH b c).
  - apply Ascii.compare_eq_iff in Exy. subst. now rewrite Eyz.
  - apply Ascii.compare_eq_iff in Eyz. subst. now rewrite Exy.
  - now rewrite (ascii_compare_lt_trans x y z Exy Eyz).
Qed.

Lemma string_leb_cases (a b : string) :
  String.leb a b = true <-> String.compare a b = Lt \/ a = b.
Proof.
  unfold String.leb. split.
  - destruct (String.compare a b) eqn:E; try discriminate; auto.
    right. now apply String.compare_eq_iff.
  - intros [->| ->]; [reflexivity|]. now rewrite string_compare_refl.
Qed.

Lemma key2_le_refl (a : string * string) : key2_le a a.
Proof.
  unfold key2_le, key2_leb. rewrite string_compare_refl.
  apply string_leb_cases. now right.
Qed.

Lemma key2_le_trans (a b c : string * string) :
  key2_le a b -> key2_le b c -> key2_le a c.
Proof.
  destruct a as [a1 a2], b as [b1 b2], c as [c1 c2].
  unfold key2_le, key2_leb. simpl.
  destruct (String.compare a1 b1) eqn:E1; try discriminate;
    destruct (String.compare b1 c1) eqn:E2; try discriminate; intros H1 H2.
  - apply String.compare_eq_iff in E1, E2. subst.
    rewrite string_compare_refl.
    apply string_leb_cases in H1, H2. apply string_leb_cases.
    destruct H1 as [H1| ->], H2 as [H2| ->]; auto.
    left. eapply string_compare_lt_trans; eassumption.
  - apply String.compare_eq_iff in E1. subst. now rewrite E2.
  - apply String.compare_eq_iff in E2. subst. now rewrite E1.
  - now rewrite (string_compare_lt_trans a1 b1 c1 E1 E2).
Qed.

Lemma key2_le_total (a b : string * string) :
  key2_leb a b = false -> key2_le b a.
Proof.
  destruct a as [a1 a2], b as [b1 b2]. unfold key2_le, key2_leb. simpl.
  rewrite (String.compare_antisym b1 a1).
  destruct (String.compare a1 b1) eqn:E; simpl; try discriminate; auto.
  intros H. destruct (String.leb_total a2 b2) as [H'|H']; congruence.
Qed.

Section SortedKeys.
Context {K : Type}.
Variable kleb : K -> K -> bool.
Hypothesis kle_trans :
  forall a b c, kleb a b = true -> kleb b c = true -> kleb a c = true.
Hypothesis kle_total : forall a b, kleb a b = false -> kleb b a = true.

Lemma insert_key_sorted (k : K) (l : list K) :
  StronglySorted (fun a b => kleb a b = true) l ->
  StronglySorted (fun a b => kleb a b = true) (insert_key kleb k l).
Proof.
  induction 1 as [|h l Hl IH Hh]; simpl.
  - constructor; constructor.
  - destruct (kleb k h) eqn:E.
    + constructor; [now constructor|].
      constructor; [exact E|].
      eapply Forall_impl; [|exact Hh]. intros x Hx. eapply kle_trans; eassumption.
    + constructor; [exact IH|].
      eapply Permutation_Forall; [symmetry; apply insert_key_perm|].
      constructor; [now apply kle_total | exact Hh].
Qed.

Lemma sort_keys_sorted (l : list K) :
  StronglySorted (fun a b => kleb a b = true) (sort_keys kleb l).
Proof.
  induction l as [|k l IH]; simpl; [constructor | now apply insert_key_sorted].
Qed.
End SortedKeys.

Lemma grouped_data_sorted (data : DataFrame) :
  StronglySorted key2_le (map agg_key (grouped_data data)).
Proof.
  unfold grouped_data. rewrite groupby_week_token_keys. unfold group_keys.
  apply (sort_keys_sorted key2_leb key2_le_trans key2_le_total).
Qed.

Lemma sorted_blocks {A B K : Type} (R : K -> K -> Prop) (f : A -> K)
    (block : A -> list B) (l : list A) :
  (forall k, R k k) ->
  StronglySorted R (map f l) ->
  StronglySorted R (flat_map (fun a => map (fun _ => f a) (block a)) l).
Proof.
  intros Hrefl. induction l as [|a l IH]; simpl; intros Hs; [constructor|].
  inversion Hs as [|? ? Hl Ha]; subst. specialize (IH Hl).
  induction (block a) as [|b bs IHb]; simpl; [exact IH|].
  constructor; [exact IHb|].
  apply Forall_app. split.
  - apply Forall_forall. intros k Hk. apply in_map_iff in Hk.
    destruct Hk as [_ [<- _]]. apply Hrefl.
  - apply Forall_forall. intros k Hk. apply in_flat_map in Hk.
    destruct Hk as [a' [Ha' Hk]]. apply in_map_iff in Hk. destruct Hk as [_ [<- _]].
    rewrite Forall_forall in Ha. apply Ha. now apply in_map.
Qed.

(** X17. The rows [preprocess_data] returns are in ascending order of week
    id and, within a week, of token, both as strings compare: the order in
    which the chart receives them. *)
Theorem preprocess_data_sorted (data out : DataFrame) :
  preprocess_data data = Ok out ->
  StronglySorted key2_le (map row_key out).
Proof.
  intros Hout. destruct data as [|r0 data0]; [discriminate|].
  simpl in Hout. injection Hout as <-.
  set (data := r0 :: data0).
  unfold final_data, merge_on_week.
  rewrite flat_map_concat_map, concat_map, map_map, <- flat_map_concat_map.
  erewrite flat_map_ext.
  - apply (sorted_blocks key2_le agg_key
             (fun g => filter (fun d => String.eqb (fst (fst d)) (g_week g))
                              (dates_data data))).
    + apply key2_le_refl.
    + apply grouped_data_sorted.
  - intros g. rewrite map_map. reflexivity.
Qed.

Lemma preprocess_data_sorted_witness :
  StronglySorted key2_le (map row_key (final_data sample_data)).
Proof.
  exact (preprocess_data_sorted sample_data (final_data sample_data) eq_refl).
Defined.
